(** * fix_remove_widgets: stripping widget metadata from notebooks

    A shallow embedding of [fix_remove_widgets_Version2.py] and the
    properties of its two functions, [remove_widgets_from_notebook] and
    [main].

    The script works on three things, each modelled as the code sees it:
    - the notebook, a tree of Python values obtained from [nbformat.read]
      (dictionaries, lists, strings, numbers); the script only uses
      [.get], [in], [del] and item assignment on it, and those raise on
      values of the wrong kind;
    - the file system, reached through [Path.exists], [shutil.copy2],
      [nbformat.read] and [nbformat.write]; it is a finite map from paths
      to what stands there, a regular file with its bytes or a directory.
      A path object is kept as the string [str(path)] that [Path(p)]
      computes from the argument [p]. Links, permissions and failing
      devices are not part of it: every file can be read and replaced;
    - standard output, a sequence of printed messages.

    [nbformat]'s reader, converter and writer are not part of the script:
    they are parameters of the development, and each of the reader and
    the writer may raise. *)

From stdpp Require Import base strings list gmap pretty sorting.
From Stdlib Require Import ZArith Strings.Byte Strings.Ascii.

Set Warnings "-register-all".

(** ** Python values and exceptions *)

Inductive json : Type :=
  | JNull
  | JBool (b : bool)
  | JInt (z : Z)
  | JFloat (repr : string)
  | JStr (s : string)
  | JList (l : list json)
  | JDict (d : gmap string json).

(** A [NotebookNode] is a dictionary with string keys. *)
Abbreviation NotebookNode := (gmap string json).

Inductive exn : Type :=
  | TypeError
  | AttributeError
  | KeyError
  | IndexError
  | ValueError
  | FileNotFoundError
  | IsADirectoryError
  | SameFileError
  | JSONDecodeError
  | NBFormatError
  | SystemExit (code : Z).

Inductive outcome (A : Type) : Type :=
  | Ok (a : A)
  | Raise (e : exn).
Arguments Ok {A} a.
Arguments Raise {A} e.

#[global] Instance outcome_ret : MRet outcome := λ A a, Ok a.
#[global] Instance outcome_bind : MBind outcome := λ A B f o,
  match o with
  | Ok a => f a
  | Raise e => Raise e
  end.

(** [pat in s] on two strings: substring test. *)
Fixpoint str_contains (pat s : string) : bool :=
  String.prefix pat s ||
  match s with
  | EmptyString => false
  | String _ s' => str_contains pat s'
  end.

Definition is_str (k : string) (v : json) : bool :=
  match v with
  | JStr s => String.eqb s k
  | _ => false
  end.

(** [v.get(k, dflt)]: only dictionaries have the method. *)
Definition py_get (v : json) (k : string) (dflt : json) : outcome json :=
  match v with
  | JDict d => Ok (default dflt (d !! k))
  | _ => Raise AttributeError
  end.

(** [k in v] for a string [k]: key membership in a dictionary, element
    equality in a list, substring test in a string; the other values are
    not containers. *)
Definition py_contains (k : string) (v : json) : outcome bool :=
  match v with
  | JDict d => Ok (bool_decide (is_Some (d !! k)))
  | JList l => Ok (existsb (is_str k) l)
  | JStr s => Ok (str_contains k s)
  | _ => Raise TypeError
  end.

(** [v[k]] for a string [k]. *)
Definition py_getitem (v : json) (k : string) : outcome json :=
  match v with
  | JDict d =>
      match d !! k with
      | Some x => Ok x
      | None => Raise KeyError
      end
  | _ => Raise TypeError
  end.

(** [del v[k]] for a string [k]; the result is the value after the
    deletion. *)
Definition py_delitem (v : json) (k : string) : outcome json :=
  match v with
  | JDict d =>
      match d !! k with
      | Some _ => Ok (JDict (delete k d))
      | None => Raise KeyError
      end
  | _ => Raise TypeError
  end.

(** [v[k] = x] for a string [k]. *)
Definition py_setitem (v : json) (k : string) (x : json) : outcome json :=
  match v with
  | JDict d => Ok (JDict (<[k := x]> d))
  | _ => Raise TypeError
  end.

(** The items a [for] loop draws from [v]: the elements of a list, the
    keys of a dictionary, the characters of a string. (The keys come in
    the order of the map, not in the order of insertion; the script
    raises on the first key whichever it is.) *)
Definition py_iter (v : json) : outcome (list json) :=
  match v with
  | JList l => Ok l
  | JDict d => Ok (JStr <$> (map_to_list d).*1)
  | JStr s => Ok ((λ c, JStr (String c EmptyString)) <$> String.list_ascii_of_string s)
  | _ => Raise TypeError
  end.

(** [nb["cells"][i]["metadata"] = meta]. The notebook is a tree (it was
    just built from JSON text, so no two places share an object): the
    assignment into the [i]-th cell is the update of the tree at that
    place. *)
Definition set_cell_metadata (nb : NotebookNode) (i : nat) (meta : json)
  : outcome NotebookNode :=
  cells ← py_getitem (JDict nb) "cells";
  match cells with
  | JList l =>
      match l !! i with
      | Some cell =>
          cell' ← py_setitem cell "metadata" meta;
          Ok (<["cells" := JList (<[i := cell']> l)]> nb)
      | None => Raise IndexError
      end
  | JDict _ => Raise KeyError
  | JStr _ => Raise TypeError
  | _ => Raise TypeError
  end.

(** [del nb["metadata"]["widgets"]]. *)
Definition del_top_widgets (nb : NotebookNode) : outcome NotebookNode :=
  meta ← py_getitem (JDict nb) "metadata";
  meta' ← py_delitem meta "widgets";
  Ok (<["metadata" := meta']> nb).


(** ** pathlib and os.path on POSIX paths *)

Definition slash : Ascii.ascii := "/"%char.
Definition dot : Ascii.ascii := "."%char.

Fixpoint str_take (n : nat) (s : string) : string :=
  match n, s with
  | S n', String a s' => String a (str_take n' s')
  | _, _ => EmptyString
  end.

Fixpoint str_drop (n : nat) (s : string) : string :=
  match n, s with
  | S n', String _ s' => str_drop n' s'
  | _, _ => s
  end.

(** [s.rfind(c)]: the last position of [c], if any. *)
Fixpoint str_rfind (c : Ascii.ascii) (s : string) : option nat :=
  match s with
  | EmptyString => None
  | String a s' =>
      match str_rfind c s' with
      | Some i => Some (S i)
      | None => if Ascii.eqb a c then Some 0 else None
      end
  end.

Fixpoint str_has (c : Ascii.ascii) (s : string) : bool :=
  match s with
  | EmptyString => false
  | String a s' => Ascii.eqb a c || str_has c s'
  end.

(** [s.split(c)]: the pieces between the occurrences of [c]. *)
Fixpoint str_split (c : Ascii.ascii) (s : string) : list string :=
  match s with
  | EmptyString => [EmptyString]
  | String a s' =>
      if Ascii.eqb a c then EmptyString :: str_split c s'
      else
        match str_split c s' with
        | x :: xs => String a x :: xs
        | [] => [String a EmptyString]
        end
  end.

(** [sep.join(parts)] *)
Fixpoint str_join (sep : string) (parts : list string) : string :=
  match parts with
  | [] => ""
  | x :: rest =>
      match rest with
      | [] => x
      | _ :: _ => x +:+ sep +:+ str_join sep rest
      end
  end.

Fixpoint leading_slashes (s : string) : nat :=
  match s with
  | EmptyString => 0
  | String a s' => if Ascii.eqb a slash then S (leading_slashes s') else 0
  end.

(** The root of a path: one slash, or two when the path starts with
    exactly two. *)
Definition path_root (p : string) : string :=
  match leading_slashes p with
  | 0 => ""
  | 2 => "//"
  | _ => "/"
  end.

(** The components of a path: empty ones and ["."] are dropped. *)
Definition path_parts (p : string) : list string :=
  filter (λ x, x ≠ "" ∧ x ≠ ".") (str_split slash p).

(** [str(Path(p))]: the root, then the components joined by slashes;
    ["."] when there is neither. *)
Definition Path (p : string) : string :=
  let s := path_root p +:+ str_join "/" (path_parts p) in
  if String.eqb s "" then "." else s.

Definition str (path : string) : string := path.

(** [os.path.basename]: what follows the last slash. *)
Definition basename (p : string) : string :=
  match str_rfind slash p with
  | Some i => str_drop (S i) p
  | None => p
  end.

(** [os.path.join(a, b)] *)
Definition path_join (a b : string) : string :=
  if String.prefix "/" b then b
  else if String.eqb a "" then b
  else if String.eqb (str_drop (String.length a - 1) a) "/" then a +:+ b
  else a +:+ "/" +:+ b.

(** [PurePath.name], on the string of a path: the last component; the
    path without components, ["."], and the bare roots have none. *)
Definition path_name (p : string) : string :=
  if String.eqb p "." then "" else basename p.

(** [PurePath.suffix]: from the last dot of the name on, unless that dot
    opens or closes the name. *)
Definition path_suffix (p : string) : string :=
  let name := path_name p in
  match str_rfind dot name with
  | Some i =>
      if bool_decide (0 < i < String.length name - 1) then str_drop i name
      else ""
  | None => ""
  end.

(** [PurePath.with_suffix] *)
Definition with_suffix (p suffix : string) : outcome string :=
  if str_has slash suffix then Raise ValueError
  else if (negb (String.eqb suffix "") && negb (String.prefix "." suffix))
          || String.eqb suffix "."
  then Raise ValueError
  else
    let name := path_name p in
    if String.eqb name "" then Raise ValueError
    else
      let old_suffix := path_suffix p in
      let name' :=
        if String.eqb old_suffix "" then name +:+ suffix
        else str_take (String.length name - String.length old_suffix) name
               +:+ suffix in
      Ok (str_take (String.length p - String.length name) p +:+ name').

(** ** The world: files and what the run does to them and prints *)

Abbreviation bytes := (list byte).

#[global] Instance byte_eq_dec : EqDecision byte := Byte.byte_eq_dec.

(** What stands at a path. *)
Inductive node : Type :=
  | File (content : bytes)
  | Dir.

(** [os.path.isdir] *)
Definition is_dir (fs : gmap string node) (p : string) : bool :=
  match fs !! p with
  | Some Dir => true
  | _ => false
  end.

(** The messages of the script. *)
Inductive msg : Type :=
  | MsgUsage
  | MsgSkip (path : string)
  | MsgBackup (path bak : string)
  | MsgRemovedCell (i : nat)
  | MsgRemovedTop
  | MsgPatched (path : string)
  | MsgNoChange (path : string).

(** The text of each line, as the f-strings build it. *)
Definition render (m : msg) : string :=
  match m with
  | MsgUsage =>
      "Usage: python fix_remove_widgets.py notebook1.ipynb [notebook2.ipynb ...]"
  | MsgSkip path => "[SKIP] Not found: " +:+ path
  | MsgBackup path bak => "[BACKUP] " +:+ path +:+ " -> " +:+ bak
  | MsgRemovedCell i => "  - Removed metadata.widgets from cell " +:+ pretty i
  | MsgRemovedTop => "  - Removed top-level metadata.widgets"
  | MsgPatched path => "[PATCHED] " +:+ path
  | MsgNoChange path =>
      "[NO CHANGE] " +:+ path +:+ " (no metadata.widgets found)"
  end.

(** What a run does, in the order it does it: a message printed, a file
    copied to the place where the copy lands, a notebook written to a
    file with the bytes that reach it. *)
Inductive event : Type :=
  | Printed (m : msg)
  | Copied (src dst : string)
  | Written (path : string) (nb : gmap string json) (content : bytes).

Record world : Type := World {
  files : gmap string node;
  trace : list event
}.

(** Computations of the script: they may change the world and may raise;
    what was done before an exception stays done. *)
Definition M (A : Type) : Type := world → outcome A * world.

#[global] Instance M_ret : MRet M := λ A a w, (Ok a, w).
#[global] Instance M_bind : MBind M := λ A B f m w,
  match m w with
  | (Ok a, w') => f a w'
  | (Raise e, w') => (Raise e, w')
  end.

Definition lift {A} (o : outcome A) : M A := λ w, (o, w).
Definition raise {A} (e : exn) : M A := λ w, (Raise e, w).
Definition emit (ev : event) : M unit :=
  λ w, (Ok tt, World (files w) (trace w ++ [ev])).
Definition print (m : msg) : M unit := emit (Printed m).

(** [path.exists()]: something stands at the path, a file or a
    directory. *)
Definition path_exists (path : string) : M bool :=
  λ w, (Ok (bool_decide (is_Some (files w !! path))), w).

(** Where [shutil.copy2(src, dst)] puts the copy: at [dst], or inside
    [dst] under the name of [src] when [dst] is a directory. *)
Definition copy_target (fs : gmap string node) (src dst : string) : string :=
  if is_dir fs dst then path_join dst (basename src) else dst.

(** [shutil.copy2(src, dst)]: it refuses to copy a file onto itself,
    opens [src] for reading, then the target for writing. *)
Definition shutil_copy2 (src dst : string) : M unit :=
  λ w,
    let fs := files w in
    let target := copy_target fs src dst in
    if String.eqb src target && bool_decide (is_Some (fs !! src))
    then (Raise SameFileError, w)
    else
      match fs !! src with
      | None => (Raise FileNotFoundError, w)
      | Some Dir => (Raise IsADirectoryError, w)
      | Some (File content) =>
          if is_dir fs target then (Raise IsADirectoryError, w)
          else (Ok tt, World (<[target := File content]> fs)
                             (trace w ++ [Copied src target]))
      end.

(** The [as_version] and [version] arguments of [nbformat]. *)
Inductive version_arg : Type :=
  | NO_CONVERT
  | Version (v : Z).

Definition newline : byte := x0a.

(** What [nbformat.write] puts in the file: the text of the writer, and
    a newline after it unless the text ends with one. *)
Definition with_newline (s : bytes) : bytes :=
  match last s with
  | Some b => if decide (b = newline) then s else s ++ [newline]
  | None => [newline]
  end.

Section Script.

(** [nbformat]'s reader for a text in its own format version, its
    converter between versions, and its writer for a version. *)
Variable nb_reads : bytes → outcome NotebookNode.
Variable nb_convert : NotebookNode → Z → NotebookNode.
Variable nb_writes : json → NotebookNode → outcome bytes.

(** [reader.get_version]: the major version the notebook declares. *)
Definition get_version (nb : NotebookNode) : json :=
  default (JInt 1) (nb !! "nbformat").

(** [nbformat.read(path, as_version)]: it opens the file, then reads. *)
Definition nbformat_read (path : string) (as_version : version_arg)
  : M NotebookNode :=
  λ w,
    match files w !! path with
    | Some (File content) =>
        match nb_reads content with
        | Ok nb =>
            match as_version with
            | NO_CONVERT => (Ok nb, w)
            | Version v => (Ok (nb_convert nb v), w)
            end
        | Raise e => (Raise e, w)
        end
    | Some Dir => (Raise IsADirectoryError, w)
    | None => (Raise FileNotFoundError, w)
    end.

(** [nbformat.write(nb, path, version)]; [version] defaults to
    [NO_CONVERT], which writes the notebook in its own version. The text
    is made first; the file is opened and replaced only once the writer
    has returned. *)
Definition nbformat_write (nb : NotebookNode) (path : string)
    (version : version_arg) : M unit :=
  λ w,
    let text :=
      match version with
      | NO_CONVERT => nb_writes (get_version nb) nb
      | Version v => nb_writes (JInt v) (nb_convert nb v)
      end in
    match text with
    | Ok s =>
        if is_dir (files w) path then (Raise IsADirectoryError, w)
        else (Ok tt, World (<[path := File (with_newline s)]> (files w))
                           (trace w ++ [Written path nb (with_newline s)]))
    | Raise e => (Raise e, w)
    end.

(** The body of the loop over the cells, for the cell at position [i]. *)
Definition cell_step (i : nat) (cell : json) (st : NotebookNode * bool)
  : M (NotebookNode * bool) :=
  meta ← lift (py_get cell "metadata" (JDict ∅));
  has ← lift (py_contains "widgets" meta);
  if has : bool then
    meta ← lift (py_delitem meta "widgets");
    nb ← lift (set_cell_metadata st.1 i meta);
    print (MsgRemovedCell i);;
    mret (nb, true)
  else mret st.

(** [for i, cell in enumerate(...)], from position [i] on. *)
Fixpoint cells_loop (i : nat) (cells : list json)
    (st : NotebookNode * bool) : M (NotebookNode * bool) :=
  match cells with
  | [] => mret st
  | cell :: rest =>
      st ← cell_step i cell st;
      cells_loop (S i) rest st
  end.

(** [remove_widgets_from_notebook(path)]; [path] is the string of the
    path object, as [Path] makes it. *)
Definition remove_widgets_from_notebook (path : string) : M bool :=
  found ← path_exists path;
  if negb found then
    print (MsgSkip path);;
    mret false
  else
    (* Backup *)
    bak ← lift (with_suffix path (path_suffix path +:+ ".bak"));
    shutil_copy2 path bak;;
    print (MsgBackup path bak);;
    nb ← nbformat_read (str path) NO_CONVERT;
    let changed := false in
    (* Remove cell-level metadata.widgets *)
    cells ← lift (py_iter (default (JList []) (nb !! "cells")));
    '(nb, changed) ← cells_loop 0 cells (nb, changed);
    (* Remove top-level metadata.widgets *)
    let top_meta := default (JDict ∅) (nb !! "metadata") in
    has ← lift (py_contains "widgets" top_meta);
    '(nb, changed) ←
      (if has : bool then
         nb ← lift (del_top_widgets nb);
         print MsgRemovedTop;;
         mret (nb, true)
       else mret (nb, changed));
    (if changed : bool then
       nbformat_write nb (str path) NO_CONVERT;;
       print (MsgPatched path)
     else print (MsgNoChange path));;
    mret true.

(** [for p in paths: remove_widgets_from_notebook(Path(p))] *)
Fixpoint for_each_path (paths : list string) : M unit :=
  match paths with
  | [] => mret tt
  | p :: rest =>
      remove_widgets_from_notebook (Path p);;
      for_each_path rest
  end.

(** [main], given [sys.argv]. *)
Definition main (argv : list string) : M unit :=
  if bool_decide (length argv < 2) then
    print MsgUsage;;
    raise (SystemExit 1)
  else for_each_path (drop 1 argv).

End Script.

(** ** The vocabulary of the properties *)

(** A metadata entry is a mapping that holds the key [widgets]. *)
Definition meta_has_widgets (o : option json) : bool :=
  match o with
  | Some (JDict m) => bool_decide (is_Some (m !! "widgets"))
  | _ => false
  end.

Definition cell_has_widgets (cell : json) : bool :=
  match cell with
  | JDict c => meta_has_widgets (c !! "metadata")
  | _ => false
  end.

(** The cell with the key [widgets] taken out of its metadata mapping;
    any other cell as it is. *)
Definition strip_cell (cell : json) : json :=
  match cell with
  | JDict c =>
      match c !! "metadata" with
      | Some (JDict m) => JDict (<["metadata" := JDict (delete "widgets" m)]> c)
      | _ => cell
      end
  | _ => cell
  end.

(** The cells of a notebook, in document order. *)
Definition nb_cells (nb : NotebookNode) : list json :=
  match nb !! "cells" with
  | Some (JList l) => l
  | _ => []
  end.

Definition strip_cells (nb : NotebookNode) : NotebookNode :=
  match nb !! "cells" with
  | Some (JList l) => <["cells" := JList (strip_cell <$> l)]> nb
  | _ => nb
  end.

Definition strip_top (nb : NotebookNode) : NotebookNode :=
  match nb !! "metadata" with
  | Some (JDict m) => <["metadata" := JDict (delete "widgets" m)]> nb
  | _ => nb
  end.

(** The same, on the [metadata] and [cells] entries themselves. *)
Definition strip_meta_entry (o : option json) : option json :=
  match o with
  | Some (JDict m) => Some (JDict (delete "widgets" m))
  | _ => o
  end.

Definition strip_cells_entry (o : option json) : option json :=
  match o with
  | Some (JList l) => Some (JList (strip_cell <$> l))
  | _ => o
  end.

(** The notebook without its widget metadata. *)
Definition strip_widgets (nb : NotebookNode) : NotebookNode :=
  strip_top (strip_cells nb).

(** Some cell or the notebook itself carries widget metadata. *)
Definition has_widgets (nb : NotebookNode) : bool :=
  existsb cell_has_widgets (nb_cells nb)
  || meta_has_widgets (nb !! "metadata").

(** The positions, counted from [i], of the cells that carry widget
    metadata, in increasing order. *)
Fixpoint widget_cells_from (i : nat) (cells : list json) : list nat :=
  match cells with
  | [] => []
  | cell :: rest =>
      (if cell_has_widgets cell then [i] else [])
        ++ widget_cells_from (S i) rest
  end.

(** The removal notices a notebook gives rise to. *)
Definition removal_notices (nb : NotebookNode) : list msg :=
  (MsgRemovedCell <$> widget_cells_from 0 (nb_cells nb))
    ++ (if meta_has_widgets (nb !! "metadata") then [MsgRemovedTop] else []).

Definition is_removal_notice (ev : event) : bool :=
  match ev with
  | Printed (MsgRemovedCell _) | Printed MsgRemovedTop => true
  | _ => false
  end.

Definition is_copy (ev : event) : bool :=
  match ev with
  | Copied _ _ => true
  | _ => false
  end.

Definition is_written (path : string) (ev : event) : bool :=
  match ev with
  | Written q _ _ => String.eqb q path
  | _ => false
  end.

(** The entry [o'] is the entry [o] with the key [widgets] taken out of
    it, when [o] is a mapping; otherwise it is [o]. *)
Definition without_widgets (o o' : option json) : Prop :=
  match o with
  | Some (JDict m) =>
      ∃ m', o' = Some (JDict m')
            ∧ m' !! "widgets" = None
            ∧ ∀ k, k ≠ "widgets" → m' !! k = m !! k
  | _ => o' = o
  end.

(** The cell [cell'] is [cell] with nothing changed but the key [widgets]
    of its metadata, which is gone. *)
Definition cell_stripped (cell cell' : json) : Prop :=
  match cell with
  | JDict c =>
      ∃ c', cell' = JDict c'
            ∧ (∀ k, k ≠ "metadata" → c' !! k = c !! k)
            ∧ without_widgets (c !! "metadata") (c' !! "metadata")
  | _ => cell' = cell
  end.

(** The notebook [nb'] is [nb] after the removal: the cells are the same
    in number and order, each stripped; a cell without the key is the
    very same cell; the notebook's metadata is stripped; every other
    entry is the same. *)
Definition widgets_removed (nb nb' : NotebookNode) : Prop :=
  (∀ k, k ≠ "cells" → k ≠ "metadata" → nb' !! k = nb !! k)
  ∧ without_widgets (nb !! "metadata") (nb' !! "metadata")
  ∧ match nb !! "cells" with
    | Some (JList l) =>
        ∃ l', nb' !! "cells" = Some (JList l')
              ∧ Forall2 cell_stripped l l'
              ∧ ∀ i cell, l !! i = Some cell →
                  cell_has_widgets cell = false → l' !! i = Some cell
    | o => nb' !! "cells" = o
    end.

(** Two entries that differ at most in the key [widgets] of a mapping. *)
Definition same_but_widgets (o o' : option json) : Prop :=
  o' = o
  ∨ ∃ m m', o = Some (JDict m) ∧ o' = Some (JDict m')
            ∧ ∀ k, k ≠ "widgets" → m' !! k = m !! k.

Definition cell_preserved (cell cell' : json) : Prop :=
  cell' = cell
  ∨ ∃ c c', cell = JDict c ∧ cell' = JDict c'
            ∧ (∀ k, k ≠ "metadata" → c' !! k = c !! k)
            ∧ same_but_widgets (c !! "metadata") (c' !! "metadata").

(** Everything of [nb] but the two kinds of [widgets] keys is found
    again in [nb']: the entries of the notebook, the cells in their
    order, the fields of each cell, the keys of each metadata mapping. *)
Definition preserved (nb nb' : NotebookNode) : Prop :=
  (∀ k, k ≠ "cells" → k ≠ "metadata" → nb' !! k = nb !! k)
  ∧ same_but_widgets (nb !! "metadata") (nb' !! "metadata")
  ∧ (nb' !! "cells" = nb !! "cells"
     ∨ ∃ l l', nb !! "cells" = Some (JList l)
               ∧ nb' !! "cells" = Some (JList l')
               ∧ Forall2 cell_preserved l l').

(** The shape of a notebook: [cells], where present, is a sequence of
    mappings; a [metadata] entry, of a cell or of the notebook, where
    present, is a mapping. *)
Definition mapping_or_absent (o : option json) : bool :=
  match o with
  | None | Some (JDict _) => true
  | _ => false
  end.

Definition cell_shaped (cell : json) : bool :=
  match cell with
  | JDict c => mapping_or_absent (c !! "metadata")
  | _ => false
  end.

Definition well_formed (nb : NotebookNode) : bool :=
  match nb !! "cells" with
  | None => true
  | Some (JList l) => forallb cell_shaped l
  | _ => false
  end
  && mapping_or_absent (nb !! "metadata").

(** The shapes the script's operations do not raise on: wider than
    [well_formed], since a list or a string without ["widgets"] in it
    passes the membership test, and an empty string or dictionary gives
    the loop nothing to visit. *)
Definition meta_safe (o : option json) : bool :=
  match o with
  | None | Some (JDict _) => true
  | Some (JList l) => negb (existsb (is_str "widgets") l)
  | Some (JStr s) => negb (str_contains "widgets" s)
  | Some _ => false
  end.

Definition cell_safe (cell : json) : bool :=
  match cell with
  | JDict c => meta_safe (c !! "metadata")
  | _ => false
  end.

Definition cells_safe (o : option json) : bool :=
  match o with
  | None => true
  | Some (JList l) => forallb cell_safe l
  | Some (JDict d) => match map_to_list d with [] => true | _ => false end
  | Some (JStr s) => match s with EmptyString => true | _ => false end
  | Some _ => false
  end.

Definition tolerated (nb : NotebookNode) : bool :=
  cells_safe (nb !! "cells") && meta_safe (nb !! "metadata").

(** The part of [remove_widgets_from_notebook] between the read and the
    write-back, on its own: the loop over the cells, then the notebook's
    own metadata. *)
Definition top_step (st : NotebookNode * bool) : M (NotebookNode * bool) :=
  let '(nb, changed) := st in
  let top_meta := default (JDict ∅) (nb !! "metadata") in
  has ← lift (py_contains "widgets" top_meta);
  if has : bool then
    nb ← lift (del_top_widgets nb);
    print MsgRemovedTop;;
    mret (nb, true)
  else mret (nb, changed).

Definition remove_widgets (nb : NotebookNode) : M (NotebookNode * bool) :=
  let changed := false in
  cells ← lift (py_iter (default (JList []) (nb !! "cells")));
  st ← cells_loop 0 cells (nb, changed);
  top_step st.


(** The backup path of [path], the place where its copy lands, and what
    the backup does. *)
Definition bak_of (path : string) : string := path +:+ ".bak".

Definition backup_dest (fs : gmap string node) (path : string) : string :=
  copy_target fs path (bak_of path).

Definition backup_events (path dest : string) : list event :=
  [Copied path dest; Printed (MsgBackup path (bak_of path))].

(** The runs of [remove_widgets_from_notebook] on [path] from the files
    [fs]: the result, the files left, and what was done, in order. *)
Inductive processed (nb_reads : bytes → outcome NotebookNode)
    (nb_writes : json → NotebookNode → outcome bytes) (path : string)
    (fs : gmap string node)
  : outcome bool → gmap string node → list event → Prop :=
  | run_skipped :
      fs !! path = None →
      processed nb_reads nb_writes path fs
        (Ok false) fs [Printed (MsgSkip path)]
  | run_unnamed :
      is_Some (fs !! path) →
      path_name path = "" →
      processed nb_reads nb_writes path fs (Raise ValueError) fs []
  | run_directory :
      fs !! path = Some Dir →
      path_name path ≠ "" →
      processed nb_reads nb_writes path fs (Raise IsADirectoryError) fs []
  | run_no_backup content :
      fs !! path = Some (File content) →
      path_name path ≠ "" →
      is_dir fs (backup_dest fs path) = true →
      processed nb_reads nb_writes path fs (Raise IsADirectoryError) fs []
  | run_unreadable content e :
      fs !! path = Some (File content) →
      path_name path ≠ "" →
      is_dir fs (backup_dest fs path) = false →
      nb_reads content = Raise e →
      processed nb_reads nb_writes path fs
        (Raise e) (<[backup_dest fs path := File content]> fs)
        (backup_events path (backup_dest fs path))
  | run_failed content nb e notices :
      fs !! path = Some (File content) →
      path_name path ≠ "" →
      is_dir fs (backup_dest fs path) = false →
      nb_reads content = Ok nb →
      tolerated nb = false →
      e = TypeError ∨ e = AttributeError →
      forallb is_removal_notice (Printed <$> notices) = true →
      processed nb_reads nb_writes path fs
        (Raise e) (<[backup_dest fs path := File content]> fs)
        (backup_events path (backup_dest fs path) ++ (Printed <$> notices))
  | run_unwritable content nb e :
      fs !! path = Some (File content) →
      path_name path ≠ "" →
      is_dir fs (backup_dest fs path) = false →
      nb_reads content = Ok nb →
      tolerated nb = true →
      has_widgets nb = true →
      nb_writes (get_version nb) (strip_widgets nb) = Raise e →
      processed nb_reads nb_writes path fs
        (Raise e) (<[backup_dest fs path := File content]> fs)
        (backup_events path (backup_dest fs path)
           ++ (Printed <$> removal_notices nb))
  | run_patched content nb s :
      fs !! path = Some (File content) →
      path_name path ≠ "" →
      is_dir fs (backup_dest fs path) = false →
      nb_reads content = Ok nb →
      tolerated nb = true →
      has_widgets nb = true →
      nb_writes (get_version nb) (strip_widgets nb) = Ok s →
      processed nb_reads nb_writes path fs
        (Ok true)
        (<[path := File (with_newline s)]>
           (<[backup_dest fs path := File content]> fs))
        (backup_events path (backup_dest fs path)
           ++ (Printed <$> removal_notices nb)
           ++ [Written path (strip_widgets nb) (with_newline s);
               Printed (MsgPatched path)])
  | run_unchanged content nb :
      fs !! path = Some (File content) →
      path_name path ≠ "" →
      is_dir fs (backup_dest fs path) = false →
      nb_reads content = Ok nb →
      tolerated nb = true →
      has_widgets nb = false →
      processed nb_reads nb_writes path fs
        (Ok true) (<[backup_dest fs path := File content]> fs)
        (backup_events path (backup_dest fs path)
           ++ [Printed (MsgNoChange path)]).

(** The runs of [for_each_path]: one run of
    [remove_widgets_from_notebook] after the other, until one raises. *)
Inductive processed_all (nb_reads : bytes → outcome NotebookNode)
    (nb_writes : json → NotebookNode → outcome bytes)
  : list string → gmap string node
    → outcome unit → gmap string node → list event → Prop :=
  | all_done fs :
      processed_all nb_reads nb_writes [] fs (Ok tt) fs []
  | all_next p rest fs b fs1 evs1 r fs2 evs2 :
      processed nb_reads nb_writes (Path p) fs (Ok b) fs1 evs1 →
      processed_all nb_reads nb_writes rest fs1 r fs2 evs2 →
      processed_all nb_reads nb_writes (p :: rest) fs r fs2 (evs1 ++ evs2)
  | all_halt p rest fs e fs1 evs1 :
      processed nb_reads nb_writes (Path p) fs (Raise e) fs1 evs1 →
      processed_all nb_reads nb_writes (p :: rest) fs (Raise e) fs1 evs1.

(** ** Directories and printed messages *)

(** The path up to and including its last slash. *)
Definition path_dir (p : string) : string :=
  str_take (String.length p - String.length (path_name p)) p.

Definition is_usage_line (ev : event) : bool :=
  match ev with
  | Printed MsgUsage => true
  | _ => false
  end.

Definition is_skip_line (ev : event) : bool :=
  match ev with
  | Printed (MsgSkip _) => true
  | _ => false
  end.

Definition is_backup_line (ev : event) : bool :=
  match ev with
  | Printed (MsgBackup _ _) => true
  | _ => false
  end.

Definition is_patched_line (ev : event) : bool :=
  match ev with
  | Printed (MsgPatched _) => true
  | _ => false
  end.

Definition is_nochange_line (ev : event) : bool :=
  match ev with
  | Printed (MsgNoChange _) => true
  | _ => false
  end.

(** The messages the script prints about a backup name the backup path
    of the file. *)
Definition printable (m : msg) : Prop :=
  match m with
  | MsgBackup path bak => bak = bak_of path
  | _ => True
  end.

(** ** Sample notebooks and a stand-in for [nbformat] *)

Definition txt (s : string) : bytes := String.list_byte_of_string s.

(** A text that ends with a newline, as files do. *)
Definition line (s : string) : bytes := txt s ++ [newline].

(** Three cells: the first without metadata, the second with widget
    metadata and tags, the third with empty metadata; the notebook's own
    metadata holds widget state and a kernel specification. *)
Definition sample_nb : NotebookNode :=
  {[ "nbformat" := JInt 4;
     "nbformat_minor" := JInt 5;
     "metadata" :=
       JDict {[ "widgets" := JDict {[ "state" := JDict ∅ ]};
                "kernelspec" := JStr "python3" ]};
     "cells" :=
       JList
         [ JDict {[ "cell_type" := JStr "markdown"; "source" := JStr "Intro" ]};
           JDict {[ "cell_type" := JStr "code";
                    "source" := JStr "slider";
                    "execution_count" := JInt 3;
                    "outputs" := JList [JStr "IntSlider"];
                    "metadata" :=
                      JDict {[ "widgets" := JDict ∅;
                               "tags" := JList [JStr "ui"] ]} ]};
           JDict {[ "cell_type" := JStr "code";
                    "source" := JStr "print(1)";
                    "execution_count" := JNull;
                    "outputs" := JList [];
                    "metadata" := JDict ∅ ]} ] ]}.

(** A notebook without widget metadata. *)
Definition plain_nb : NotebookNode :=
  {[ "nbformat" := JInt 4;
     "metadata" := JDict {[ "kernelspec" := JStr "python3" ]};
     "cells" :=
       JList [ JDict {[ "source" := JStr "x = 1";
                        "metadata" := JDict {[ "tags" := JList [] ]} ]} ] ]}.

(** Two documents the reader accepts although their [metadata] is not a
    mapping but a list that holds the string ["widgets"]: the first is
    of format 3, which keeps its cells in worksheets and has no [cells];
    the second does not say its version and its cell has no [metadata]. *)
Definition odd_nb : NotebookNode :=
  {[ "nbformat" := JInt 3;
     "nbformat_minor" := JInt 0;
     "worksheets" := JList [];
     "metadata" := JList [JStr "widgets"] ]}.

Definition odd_cells_nb : NotebookNode :=
  {[ "cells" := JList [JDict ∅];
     "metadata" := JList [JStr "widgets"] ]}.

(** A notebook of notebook shape whose code cell has widget metadata
    but no [outputs], and whose second cell has no [metadata]: the
    reader takes it, the writer does not. *)
Definition bare_nb : NotebookNode :=
  {[ "nbformat" := JInt 4;
     "nbformat_minor" := JInt 5;
     "metadata" := JDict ∅;
     "cells" :=
       JList [ JDict {[ "cell_type" := JStr "code";
                        "source" := JStr "slider";
                        "metadata" := JDict {[ "widgets" := JDict ∅ ]} ]};
               JDict {[ "cell_type" := JStr "markdown";
                        "source" := JStr "Notes" ]} ] ]}.

(** A reader that knows six texts. *)
Definition demo_reads (content : bytes) : outcome NotebookNode :=
  if decide (content = line "sample") then Ok sample_nb
  else if decide (content = line "stripped") then Ok (strip_widgets sample_nb)
  else if decide (content = line "plain") then Ok plain_nb
  else if decide (content = line "odd") then Ok odd_nb
  else if decide (content = line "odd cells") then Ok odd_cells_nb
  else if decide (content = line "bare") then Ok bare_nb
  else Raise JSONDecodeError.

Definition demo_convert (nb : NotebookNode) (v : Z) : NotebookNode :=
  <["nbformat" := JInt v]> nb.

(** A writer that looks for the outputs of every code cell, as the
    writer of format 4 does, and tells a notebook with widget metadata
    from one without. Its text has no newline at the end. *)
Definition writable_cell (cell : json) : bool :=
  match cell with
  | JDict c =>
      match c !! "cell_type" with
      | Some (JStr "code") => bool_decide (is_Some (c !! "outputs"))
      | _ => true
      end
  | _ => true
  end.

Definition demo_writes (version : json) (nb : NotebookNode) : outcome bytes :=
  if forallb writable_cell (nb_cells nb) then
    Ok (if has_widgets nb then txt "sample" else txt "stripped")
  else Raise AttributeError.



(** A reader that finds no format in any text and says so by
    [KeyError]. *)
Definition keyless_reads (content : bytes) : outcome NotebookNode :=
  Raise KeyError.

(** Files and directories: notebooks, a text that is no notebook, two
    directories, and a notebook whose backup path is taken by a
    directory. *)
Definition demo_fs : gmap string node :=
  {[ "nb/sample.ipynb" := File (line "sample");
     "nb/plain.ipynb" := File (line "plain");
     "nb/broken.ipynb" := File (line "not a notebook");
     "nb/odd.ipynb" := File (line "odd");
     "nb/odd_cells.ipynb" := File (line "odd cells");
     "nb/bare.ipynb" := File (line "bare");
     "." := Dir;
     "nb/old" := Dir;
     "nb/kept.ipynb" := File (line "plain");
     "nb/kept.ipynb.bak" := Dir ]}.

Abbreviation demo_process :=
  (remove_widgets_from_notebook demo_reads demo_convert demo_writes).
Abbreviation demo_main := (main demo_reads demo_convert demo_writes).
(** * Properties *)

(** ** Paths and the backup path *)

Section PathFacts.

Implicit Types (s t p : string) (c : Ascii.ascii) (n i : nat).

Lemma str_app_cons a s t : String a s +:+ t = String a (s +:+ t).
Proof. reflexivity. Qed.

Lemma str_app_nil t : "" +:+ t = t.
Proof. reflexivity. Qed.

Lemma str_take_drop n s : str_take n s +:+ str_drop n s = s.
Proof.
  revert s; induction n as [|n IH]; intros [|a s]; simpl; try done.
  by rewrite str_app_cons, IH.
Qed.

Lemma str_drop_length n s :
  String.length (str_drop n s) = String.length s - n.
Proof.
  revert s; induction n as [|n IH]; intros [|a s]; simpl; try done.
Qed.

Lemma str_app_length s t :
  String.length (s +:+ t) = String.length s + String.length t.
Proof.
  induction s as [|a s IH]; [done |].
  rewrite str_app_cons. simpl. by rewrite IH.
Qed.

Lemma str_app_assoc s t u : (s +:+ t) +:+ u = s +:+ (t +:+ u).
Proof.
  induction s as [|a s IH]; [done |].
  by rewrite !str_app_cons, IH.
Qed.

Lemma str_has_app c s t : str_has c (s +:+ t) = str_has c s || str_has c t.
Proof.
  induction s as [|a s IH]; [done |].
  rewrite str_app_cons. simpl. by rewrite IH, orb_assoc.
Qed.

Lemma str_rfind_lt c s i : str_rfind c s = Some i → i < String.length s.
Proof.
  revert i; induction s as [|a s IH]; simpl; intros i; [done |].
  destruct (str_rfind c s) as [j|].
  - intros [= <-]. specialize (IH j eq_refl). lia.
  - destruct (Ascii.eqb a c); [intros [= <-]; lia | done].
Qed.

Lemma str_rfind_None c s : str_rfind c s = None → str_has c s = false.
Proof.
  induction s as [|a s IH]; simpl; [done |].
  destruct (str_rfind c s); [done |].
  destruct (Ascii.eqb a c); [done | auto].
Qed.

(** Nothing after the last occurrence. *)
Lemma str_rfind_last c s i :
  str_rfind c s = Some i → str_has c (str_drop (S i) s) = false.
Proof.
  revert i; induction s as [|a s IH]; simpl; intros i; [done |].
  destruct (str_rfind c s) as [j|] eqn:Hj.
  - intros [= <-]. by apply IH.
  - destruct (Ascii.eqb a c); [intros [= <-] | done].
    simpl. by apply str_rfind_None.
Qed.

(** The occurrence itself. *)
Lemma str_rfind_at c s i :
  str_rfind c s = Some i → ∃ t, str_drop i s = String c t.
Proof.
  revert i; induction s as [|a s IH]; simpl; intros i; [done |].
  destruct (str_rfind c s) as [j|] eqn:Hj.
  - intros [= <-]. by apply IH.
  - destruct (Ascii.eqb a c) eqn:Hac; [intros [= <-] | done].
    apply Ascii.eqb_eq in Hac as ->. by eexists.
Qed.

Lemma str_has_drop c n s :
  str_has c s = false → str_has c (str_drop n s) = false.
Proof.
  revert s; induction n as [|n IH]; intros [|a s]; simpl; try done.
  intros [_ ?]%orb_false_elim. by apply IH.
Qed.

Lemma basename_no_slash p : str_has slash (basename p) = false.
Proof.
  unfold basename. destruct (str_rfind slash p) as [i|] eqn:Hi.
  - by apply str_rfind_last.
  - by apply str_rfind_None.
Qed.

Lemma basename_tail p :
  str_take (String.length p - String.length (basename p)) p
    +:+ basename p = p.
Proof.
  unfold basename. destruct (str_rfind slash p) as [i|] eqn:Hi.
  - apply str_rfind_lt in Hi. rewrite str_drop_length.
    replace (String.length p - (String.length p - S i)) with (S i) by lia.
    apply str_take_drop.
  - rewrite Nat.sub_diag. by destruct p.
Qed.

Lemma path_name_cases p :
  (p = "." ∧ path_name p = "") ∨ (p ≠ "." ∧ path_name p = basename p).
Proof.
  unfold path_name. destruct (String.eqb_spec p "."); [by left | by right].
Qed.

Lemma path_name_basename p : path_name p ≠ "" → path_name p = basename p.
Proof. by destruct (path_name_cases p) as [[_ ->] | [_ ->]]. Qed.

Lemma path_name_no_slash p : str_has slash (path_name p) = false.
Proof.
  destruct (path_name_cases p) as [[_ ->] | [_ ->]]; [done |].
  apply basename_no_slash.
Qed.

Lemma path_name_tail p :
  str_take (String.length p - String.length (path_name p)) p
    +:+ path_name p = p.
Proof.
  destruct (path_name_cases p) as [[-> ->] | [_ ->]]; [done |].
  apply basename_tail.
Qed.


(** The suffix is the empty string or a tail of the name that starts
    with a dot. *)
Lemma path_suffix_cases p :
  path_suffix p = ""
  ∨ ∃ i t, i < String.length (path_name p)
           ∧ path_suffix p = str_drop i (path_name p)
           ∧ path_suffix p = String dot t.
Proof.
  unfold path_suffix.
  destruct (str_rfind dot (path_name p)) as [i|] eqn:Hi; [| by left].
  case_bool_decide; [| by left]. right.
  destruct (str_rfind_at _ _ _ Hi) as [t Ht].
  exists i, t. split_and!; [by eapply str_rfind_lt | done | done].
Qed.

Lemma path_suffix_no_slash p : str_has slash (path_suffix p) = false.
Proof.
  destruct (path_suffix_cases p) as [-> | (i & t & _ & -> & _)]; [done |].
  apply str_has_drop, path_name_no_slash.
Qed.

(** [path.with_suffix(path.suffix + ".bak")] appends [".bak"] to the
    path; it raises only when the path has no final component. *)
Lemma with_suffix_bak_eq p :
  with_suffix p (path_suffix p +:+ ".bak")
  = if String.eqb (path_name p) "" then Raise ValueError
    else Ok (p +:+ ".bak").
Proof.
  unfold with_suffix.
  rewrite str_has_app, path_suffix_no_slash. simpl.
  destruct (path_suffix_cases p) as [Hs | (i & t & Hi & Hdrop & Hdot)].
  - rewrite Hs. simpl.
    destruct (String.eqb (path_name p) ""); [done |].
    f_equal. rewrite <- str_app_assoc. by rewrite path_name_tail.
  - assert (Hvalid :
      (negb (String.eqb (path_suffix p +:+ ".bak") "")
       && negb (String.prefix "." (path_suffix p +:+ ".bak")))
      || String.eqb (path_suffix p +:+ ".bak") "." = false).
    { rewrite Hdot, str_app_cons. simpl. by destruct t. }
    rewrite Hvalid.
    destruct (String.eqb (path_name p) ""); [done |].
    replace (String.eqb (path_suffix p) "") with false
      by (by rewrite Hdot).
    f_equal. rewrite Hdrop, str_drop_length.
    replace (String.length (path_name p) - (String.length (path_name p) - i))
      with i by lia.
    rewrite <- (str_app_assoc (str_take i _)), str_take_drop.
    rewrite <- str_app_assoc. by rewrite path_name_tail.
Qed.

Lemma with_suffix_bak p :
  path_name p ≠ "" →
  with_suffix p (path_suffix p +:+ ".bak") = Ok (p +:+ ".bak").
Proof.
  intros Hname. rewrite with_suffix_bak_eq.
  by destruct (String.eqb_spec (path_name p) "").
Qed.

Lemma with_suffix_unnamed p :
  path_name p = "" →
  with_suffix p (path_suffix p +:+ ".bak") = Raise ValueError.
Proof. intros Hname. by rewrite with_suffix_bak_eq, Hname. Qed.

Lemma bak_neq p : p +:+ ".bak" ≠ p.
Proof.
  intros H. apply (f_equal String.length) in H.
  rewrite str_app_length in H. simpl in H. lia.
Qed.

Lemma str_has_rfind c s : str_has c s = false → str_rfind c s = None.
Proof.
  induction s as [|a s IH]; simpl; [done |].
  intros [Ha Hs]%orb_false_elim. by rewrite IH, Ha.
Qed.

Lemma str_rfind_app c s t :
  str_has c t = false → str_rfind c (s +:+ t) = str_rfind c s.
Proof.
  intros Ht. induction s as [|a s IH].
  - by apply str_has_rfind.
  - rewrite str_app_cons. simpl. by rewrite IH.
Qed.

Lemma str_drop_app n s t :
  n ≤ String.length s → str_drop n (s +:+ t) = str_drop n s +:+ t.
Proof.
  revert s; induction n as [|n IH]; intros [|a s] Hn;
    rewrite ?str_app_cons, ?str_app_nil; simpl in *; try done; try lia.
  apply IH. lia.
Qed.

Lemma str_take_app n s t :
  n ≤ String.length s → str_take n (s +:+ t) = str_take n s.
Proof.
  revert s; induction n as [|n IH]; intros [|a s] Hn;
    rewrite ?str_app_cons, ?str_app_nil; simpl in *; try done; try lia;
    try (by destruct t).
  rewrite IH; [done | lia].
Qed.

Lemma str_drop_all s t : str_drop (String.length s) (s +:+ t) = t.
Proof. induction s as [|a s IH]; [by destruct t | by rewrite str_app_cons]. Qed.

Lemma str_rfind_app_dot s t :
  str_has dot t = false →
  str_rfind dot (s +:+ String dot t) = Some (String.length s).
Proof.
  intros Ht. induction s as [|a s IH].
  - rewrite str_app_nil. simpl. by rewrite str_has_rfind.
  - rewrite str_app_cons. simpl. by rewrite IH.
Qed.

Lemma str_drop_past s t n :
  str_drop (String.length s + n) (s +:+ t) = str_drop n t.
Proof. induction s as [|a s IH]; [done | by rewrite str_app_cons]. Qed.

Lemma str_prefix_slash s : str_has slash s = false → String.prefix "/" s = false.
Proof.
  destruct s as [|a s]; [done |]. intros H. simpl in H.
  apply orb_false_elim in H as [Ha _].
  change (String.prefix "/" (String a s))
    with (if Ascii.ascii_dec "/" a then String.prefix "" s else false).
  destruct (Ascii.ascii_dec "/" a) as [<- | Hne]; [| done].
  unfold slash in Ha. by rewrite Ascii.eqb_refl in Ha.
Qed.

Lemma path_name_app p t :
  path_name p ≠ "" → str_has slash t = false →
  path_name (p +:+ t) = path_name p +:+ t.
Proof.
  intros Hname Ht.
  destruct (path_name_cases p) as [[_ H] | [Hp Hn]]; [done |].
  rewrite Hn in Hname |- *.
  assert (Hpt : p +:+ t ≠ ".").
  { intros H. destruct p as [|a p]; [by apply Hname |].
    rewrite str_app_cons in H. injection H as -> H.
    destruct p as [|b p]; [by apply Hp |]. by rewrite str_app_cons in H. }
  destruct (path_name_cases (p +:+ t)) as [[H _] | [_ ->]]; [done |].
  unfold basename. rewrite str_rfind_app by done.
  destruct (str_rfind slash p) as [i|] eqn:Hi; [| done].
  apply str_rfind_lt in Hi. apply str_drop_app. lia.
Qed.

Lemma path_name_length p : String.length (path_name p) ≤ String.length p.
Proof.
  destruct (path_name_cases p) as [[-> ->] | [_ ->]]; [simpl; lia |].
  unfold basename. destruct (str_rfind slash p); [| done].
  rewrite str_drop_length. lia.
Qed.

Lemma str_app_inv_r s1 s2 t : s1 +:+ t = s2 +:+ t → s1 = s2.
Proof.
  revert s2; induction s1 as [|a s1 IH]; intros [|b s2] H.
  - done.
  - apply (f_equal String.length) in H.
    rewrite str_app_nil, str_app_cons in H. simpl in H.
    rewrite str_app_length in H. lia.
  - apply (f_equal String.length) in H.
    rewrite str_app_nil, str_app_cons in H. simpl in H.
    rewrite str_app_length in H. lia.
  - rewrite !str_app_cons in H. injection H as -> H. f_equal. by apply IH.
Qed.

Lemma with_suffix_bak_inv p b :
  with_suffix p (path_suffix p +:+ ".bak") = Ok b →
  path_name p ≠ "" ∧ b = bak_of p.
Proof.
  rewrite with_suffix_bak_eq.
  destruct (String.eqb_spec (path_name p) "") as [|Hn]; [done |].
  by intros [= <-].
Qed.

(** The place of the copy is the backup path, or lies inside it. *)
Lemma backup_dest_cases (fs : gmap string node) path :
  (is_dir fs (bak_of path) = false ∧ backup_dest fs path = bak_of path)
  ∨ (is_dir fs (bak_of path) = true
     ∧ backup_dest fs path = bak_of path +:+ "/" +:+ basename path).
Proof.
  unfold backup_dest, copy_target.
  destruct (is_dir fs (bak_of path)); [right | by left].
  split; [done |]. unfold path_join.
  rewrite str_prefix_slash by apply basename_no_slash.
  assert (Hlast : str_drop (String.length (bak_of path) - 1) (bak_of path)
                  = "k").
  { unfold bak_of. rewrite str_app_length. simpl String.length.
    replace (String.length path + 4 - 1) with (String.length path + 3) by lia.
    by rewrite str_drop_past. }
  rewrite Hlast. simpl.
  by destruct (String.eqb_spec (bak_of path) "") as [H | _];
    [destruct path |].
Qed.

Lemma backup_dest_plain (fs : gmap string node) path :
  is_dir fs (bak_of path) = false → backup_dest fs path = bak_of path.
Proof.
  intros H. by destruct (backup_dest_cases fs path) as [[_ ?] | [? _]];
    [| congruence].
Qed.

Lemma backup_dest_neq (fs : gmap string node) path : backup_dest fs path ≠ path.
Proof.
  intros H. apply (f_equal String.length) in H.
  destruct (backup_dest_cases fs path) as [[_ Hd] | [_ Hd]];
    rewrite Hd in H; unfold bak_of in H;
    rewrite !str_app_length in H; simpl in H; lia.
Qed.

Lemma is_dir_insert_file (fs : gmap string node) p (q : string)
    (content : bytes) :
  is_dir (<[p := File content]> fs) q
  = if decide (p = q) then false else is_dir fs q.
Proof.
  unfold is_dir. case_decide as Hpq.
  - subst. by rewrite lookup_insert_eq.
  - by rewrite lookup_insert_ne.
Qed.

End PathFacts.

(** ** The monad *)

Lemma M_bind_unfold {A B} (f : A → M B) (m : M A) w :
  (m ≫= f) w =
  match m w with
  | (Ok a, w') => f a w'
  | (Raise e, w') => (Raise e, w')
  end.
Proof. reflexivity. Qed.

Lemma M_bind_lift_ok {A B} (f : A → M B) (a : A) w :
  (lift (Ok a) ≫= f) w = f a w.
Proof. reflexivity. Qed.

(** ** Cells *)

Lemma strip_cell_id cell : cell_has_widgets cell = false → strip_cell cell = cell.
Proof.
  destruct cell as [| | | | | |c]; try done. simpl.
  destruct (c !! "metadata") as [[| | | | | |m]|] eqn:Hm; try done. simpl.
  intros Hw. apply bool_decide_eq_false in Hw.
  rewrite <- not_eq_None_Some in Hw. apply dec_stable in Hw.
  by rewrite delete_id, insert_id.
Qed.

Lemma strip_cells_id cells :
  existsb cell_has_widgets cells = false → strip_cell <$> cells = cells.
Proof.
  induction cells as [|cell cells IH]; [done |].
  rewrite fmap_cons. simpl.
  intros [H1 H2]%orb_false_elim. by rewrite strip_cell_id, IH.
Qed.

Lemma strip_cell_no_widgets cell : cell_has_widgets (strip_cell cell) = false.
Proof.
  destruct cell as [| | | | | |c]; try done. simpl.
  destruct (c !! "metadata") as [[| | | | | |m]|] eqn:Hm; simpl;
    rewrite ?Hm; try done.
  rewrite lookup_insert_eq. simpl.
  apply bool_decide_eq_false. rewrite lookup_delete_eq. by intros [? ?].
Qed.

Lemma widget_cells_none i cells :
  existsb cell_has_widgets cells = false → widget_cells_from i cells = [].
Proof.
  revert i; induction cells as [|cell cells IH]; intros i; simpl; [done |].
  intros [-> H2]%orb_false_elim. by apply IH.
Qed.


(** ** The loop over the cells *)

Lemma set_cell_metadata_middle nb done c rest meta :
  nb !! "cells" = Some (JList (done ++ JDict c :: rest)) →
  set_cell_metadata nb (length done) meta
  = Ok (<["cells" := JList (done ++ JDict (<["metadata" := meta]> c) :: rest)]> nb).
Proof.
  intros Hcells. unfold set_cell_metadata. simpl. rewrite Hcells. simpl.
  rewrite list_lookup_middle by done. simpl.
  rewrite insert_app_r_alt by done. by rewrite Nat.sub_diag.
Qed.

Lemma world_eta w : World (files w) (trace w) = w.
Proof. by destruct w. Qed.

Local Ltac step_raises :=
  right; right; split; [done | eexists; intros; reflexivity].

(** What the body of the loop does to the cell at position [length done]:
    it removes the key and says so, or leaves everything as it is, or
    raises. *)
Lemma cell_step_cases cell nb ch done rest :
  nb !! "cells" = Some (JList (done ++ cell :: rest)) →
  (cell_has_widgets cell = true ∧ cell_safe cell = true
   ∧ ∀ w, cell_step (length done) cell (nb, ch) w
     = (Ok (<["cells" := JList (done ++ strip_cell cell :: rest)]> nb, true),
        World (files w) (trace w ++ [Printed (MsgRemovedCell (length done))])))
  ∨ (cell_has_widgets cell = false ∧ cell_safe cell = true
     ∧ ∀ w, cell_step (length done) cell (nb, ch) w = (Ok (nb, ch), w))
  ∨ (cell_safe cell = false
     ∧ ∃ e, ∀ w, cell_step (length done) cell (nb, ch) w = (Raise e, w)).
Proof.
  intros Hcells. unfold cell_step.
  destruct cell as [| | | | | |c];
    try step_raises.
  simpl py_get. simpl cell_has_widgets. simpl cell_safe. simpl strip_cell.
  destruct (c !! "metadata") as [meta|] eqn:Hm; simpl default.
  2:{ right; left. done. }
  destruct meta as [| | | | s | l |m];
    try step_raises.
  - simpl meta_safe. destruct (str_contains "widgets" s) eqn:Hin.
    + right; right. split; [done |]. eexists. intros w.
      rewrite M_bind_lift_ok. simpl py_contains. by rewrite Hin.
    + right; left. split_and!; [done | done |]. intros w.
      rewrite M_bind_lift_ok. simpl py_contains. by rewrite Hin.
  - simpl meta_safe. destruct (existsb (is_str "widgets") l) eqn:Hin.
    + right; right. split; [done |]. eexists. intros w.
      rewrite M_bind_lift_ok. simpl py_contains. by rewrite Hin.
    + right; left. split_and!; [done | done |]. intros w.
      rewrite M_bind_lift_ok. simpl py_contains. by rewrite Hin.
  - simpl meta_has_widgets.
    case_bool_decide as Hw.
    + left. split_and!; [done | done |]. destruct Hw as [x Hx]. intros w.
      rewrite M_bind_lift_ok. simpl py_contains.
      rewrite bool_decide_eq_true_2, M_bind_lift_ok by by eexists.
      simpl py_delitem. rewrite Hx. rewrite M_bind_lift_ok. simpl fst.
      rewrite (set_cell_metadata_middle _ _ _ _ _ Hcells).
      rewrite M_bind_lift_ok. done.
    + right; left. split_and!; [done | done |]. intros w.
      rewrite M_bind_lift_ok. simpl py_contains.
      by rewrite bool_decide_eq_false_2.
Qed.

Lemma cells_loop_cons i cell rest st w :
  cells_loop i (cell :: rest) st w =
  match cell_step i cell st w with
  | (Ok st', w') => cells_loop (S i) rest st' w'
  | (Raise e, w') => (Raise e, w')
  end.
Proof. reflexivity. Qed.

(** The loop from position [length done] on, the cells before it being
    [done]. *)
Lemma cells_loop_spec rest : ∀ done nb ch,
  nb !! "cells" = Some (JList (done ++ rest)) →
  ∃ r notices,
    (∀ w, cells_loop (length done) rest (nb, ch) w
          = (r, World (files w) (trace w ++ (Printed <$> notices))))
    ∧ match r with
      | Ok (nb', ch') =>
          forallb cell_safe rest = true
          ∧ nb' = (if existsb cell_has_widgets rest
                   then <["cells" := JList (done ++ (strip_cell <$> rest))]> nb
                   else nb)
          ∧ ch' = ch || existsb cell_has_widgets rest
          ∧ notices = MsgRemovedCell <$> widget_cells_from (length done) rest
      | Raise _ =>
          forallb cell_safe rest = false
          ∧ ∃ positions, notices = MsgRemovedCell <$> positions
      end.
Proof.
  induction rest as [|cell rest IH]; intros done nb ch Hcells.
  { exists (Ok (nb, ch)), []. split; [| by rewrite orb_false_r].
    intros w. simpl. by rewrite app_nil_r, world_eta. }
  destruct (cell_step_cases cell nb ch done rest Hcells)
    as [(Hw & Hs & Hstep) | [(Hw & Hs & Hstep) | (Hs & e & Hstep)]].
  - set (nb1 := <["cells" := _]> nb) in Hstep.
    destruct (IH (done ++ [strip_cell cell]) nb1 true)
      as (r & notices & Hrun & Hr).
    { unfold nb1. rewrite lookup_insert_eq. by rewrite <- app_assoc. }
    rewrite length_app, Nat.add_1_r in Hrun, Hr.
    exists r, (MsgRemovedCell (length done) :: notices).
    split.
    { intros w. rewrite cells_loop_cons, Hstep, Hrun. cbn [files trace].
      by rewrite fmap_cons, <- app_assoc. }
    cbn [existsb widget_cells_from forallb]. rewrite Hw, Hs. cbn [orb app andb].
    destruct r as [[nb' ch']|e'].
    + destruct Hr as (Hsafe & -> & -> & ->).
      rewrite orb_true_r, fmap_cons.
      split_and!; [done | | done | done].
      unfold nb1. destruct (existsb cell_has_widgets rest) eqn:Hex.
      * rewrite insert_insert_eq. by rewrite <- app_assoc.
      * by rewrite strip_cells_id.
    + destruct Hr as (Hsafe & positions & ->). split; [done |].
      by exists (length done :: positions).
  - destruct (IH (done ++ [cell]) nb ch) as (r & notices & Hrun & Hr).
    { by rewrite <- app_assoc. }
    rewrite length_app, Nat.add_1_r in Hrun, Hr.
    exists r, notices. split.
    { intros w. by rewrite cells_loop_cons, Hstep, Hrun. }
    cbn [existsb widget_cells_from forallb]. rewrite Hw, Hs. cbn [orb app andb].
    destruct r as [[nb' ch']|e'].
    + destruct Hr as (Hsafe & -> & -> & ->).
      by rewrite fmap_cons, (strip_cell_id _ Hw), <- !app_assoc.
    + done.
  - exists (Raise e), []. split.
    { intros w. rewrite cells_loop_cons, Hstep. simpl.
      by rewrite app_nil_r, world_eta. }
    cbn [forallb]. rewrite Hs. split; [done | by exists []].
Qed.

(** ** The notebook's own metadata *)

Lemma top_step_spec nb ch :
  ∃ r notices,
    (∀ w, top_step (nb, ch) w
          = (r, World (files w) (trace w ++ (Printed <$> notices))))
    ∧ match r with
      | Ok (nb', ch') =>
          meta_safe (nb !! "metadata") = true
          ∧ nb' = strip_top nb
          ∧ ch' = ch || meta_has_widgets (nb !! "metadata")
          ∧ notices =
              (if meta_has_widgets (nb !! "metadata") then [MsgRemovedTop]
               else [])
      | Raise _ => meta_safe (nb !! "metadata") = false ∧ notices = []
      end.
Proof.
  assert (Hsame : ∀ has,
    (∀ w, top_step (nb, ch) w = (if has : bool then top_step (nb, ch) w
                                 else (Ok (nb, ch), w))) →
    has = false → strip_top nb = nb →
    meta_safe (nb !! "metadata") = true →
    meta_has_widgets (nb !! "metadata") = false →
    ∃ r notices,
      (∀ w, top_step (nb, ch) w
            = (r, World (files w) (trace w ++ (Printed <$> notices))))
      ∧ match r with
        | Ok (nb', ch') =>
            meta_safe (nb !! "metadata") = true
            ∧ nb' = strip_top nb
            ∧ ch' = ch || meta_has_widgets (nb !! "metadata")
            ∧ notices =
                (if meta_has_widgets (nb !! "metadata") then [MsgRemovedTop]
                 else [])
        | Raise _ => meta_safe (nb !! "metadata") = false ∧ notices = []
        end).
  { intros has Hrun -> Hstrip Hsafe Hhas.
    exists (Ok (nb, ch)), []. split.
    - intros w. rewrite Hrun. simpl. by rewrite app_nil_r, world_eta.
    - by rewrite Hstrip, Hsafe, Hhas, orb_false_r. }
  assert (Hraise : ∀ e,
    (∀ w, top_step (nb, ch) w = (Raise e, w)) →
    meta_safe (nb !! "metadata") = false →
    ∃ r notices,
      (∀ w, top_step (nb, ch) w
            = (r, World (files w) (trace w ++ (Printed <$> notices))))
      ∧ match r with
        | Ok (nb', ch') =>
            meta_safe (nb !! "metadata") = true
            ∧ nb' = strip_top nb
            ∧ ch' = ch || meta_has_widgets (nb !! "metadata")
            ∧ notices =
                (if meta_has_widgets (nb !! "metadata") then [MsgRemovedTop]
                 else [])
        | Raise _ => meta_safe (nb !! "metadata") = false ∧ notices = []
        end).
  { intros e Hrun Hsafe. exists (Raise e), []. split; [| done].
    intros w. rewrite Hrun. simpl. by rewrite app_nil_r, world_eta. }
  unfold top_step, strip_top, del_top_widgets in *.
  destruct (nb !! "metadata") as [meta|] eqn:Hm; simpl default in *.
  2:{ by apply (Hsame false). }
  destruct meta as [| | | | s | l |m];
    try (by apply (Hraise TypeError)).
  - destruct (str_contains "widgets" s) eqn:Hin.
    + apply (Hraise TypeError); [| by simpl; rewrite Hin].
      intros w. simpl py_contains. rewrite Hin.
      rewrite M_bind_lift_ok. simpl. by rewrite Hm.
    + apply (Hsame false); try done; [| by simpl; rewrite Hin].
      intros w. simpl py_contains. by rewrite Hin.
  - destruct (existsb (is_str "widgets") l) eqn:Hin.
    + apply (Hraise TypeError); [| by simpl; rewrite Hin].
      intros w. simpl py_contains. rewrite Hin.
      rewrite M_bind_lift_ok. simpl. by rewrite Hm.
    + apply (Hsame false); try done; [| by simpl; rewrite Hin].
      intros w. simpl py_contains. by rewrite Hin.
  - simpl meta_has_widgets. simpl meta_safe. clear Hsame Hraise.
    case_bool_decide as Hw.
    + destruct Hw as [x Hx].
      exists (Ok (<["metadata" := JDict (delete "widgets" m)]> nb, true)),
             [MsgRemovedTop].
      split; [| by rewrite orb_true_r].
      intros w. simpl py_contains.
      rewrite bool_decide_eq_true_2, M_bind_lift_ok by by eexists.
      simpl. rewrite Hm. simpl. by rewrite Hx.
    + exists (Ok (nb, ch)), []. split.
      * intros w. simpl py_contains.
        rewrite bool_decide_eq_false_2, M_bind_lift_ok by done.
        simpl. by rewrite app_nil_r, world_eta.
      * rewrite orb_false_r.
        rewrite <- not_eq_None_Some in Hw. apply dec_stable in Hw.
        by rewrite delete_id, insert_id.
Qed.

(** ** The two steps together *)

Lemma strip_cells_metadata nb : strip_cells nb !! "metadata" = nb !! "metadata".
Proof.
  unfold strip_cells. destruct (nb !! "cells") as [[| | | | | l |]|]; try done.
  by rewrite lookup_insert_ne.
Qed.

Lemma removal_notices_none nb : has_widgets nb = false → removal_notices nb = [].
Proof.
  unfold has_widgets, removal_notices. intros [H1 H2]%orb_false_elim.
  by rewrite widget_cells_none, H2.
Qed.


Lemma cell_notices_are_notices (positions : list nat) :
  forallb is_removal_notice (Printed <$> (MsgRemovedCell <$> positions)) = true.
Proof. induction positions as [|i positions IH]; [done | exact IH]. Qed.

Lemma removal_notices_are_notices nb :
  forallb is_removal_notice (Printed <$> removal_notices nb) = true.
Proof.
  unfold removal_notices. rewrite fmap_app, forallb_app.
  apply andb_true_intro. split.
  - apply cell_notices_are_notices.
  - by destruct (meta_has_widgets _).
Qed.

Lemma remove_widgets_unfold nb w :
  remove_widgets nb w =
  match py_iter (default (JList []) (nb !! "cells")) with
  | Ok cells =>
      match cells_loop 0 cells (nb, false) w with
      | (Ok st, w') => top_step st w'
      | (Raise e, w') => (Raise e, w')
      end
  | Raise e => (Raise e, w)
  end.
Proof.
  unfold remove_widgets.
  by destruct (py_iter (default (JList []) (nb !! "cells"))).
Qed.

(** The result of [remove_widgets] and the notices it prints do not
    depend on the world; it returns exactly on the tolerated shapes, and
    then with the stripped notebook. *)
Lemma remove_widgets_spec nb :
  ∃ r notices,
    (∀ w, remove_widgets nb w
          = (r, World (files w) (trace w ++ (Printed <$> notices))))
    ∧ forallb is_removal_notice (Printed <$> notices) = true
    ∧ match r with
      | Ok (nb', ch) =>
          tolerated nb = true
          ∧ nb' = strip_widgets nb
          ∧ ch = has_widgets nb
          ∧ notices = removal_notices nb
      | Raise _ => tolerated nb = false
      end.
Proof.
  assert (Hnone :
    (∀ w, remove_widgets nb w = top_step (nb, false) w) →
    nb_cells nb = [] → strip_cells nb = nb →
    cells_safe (nb !! "cells") = true →
    ∃ r notices,
      (∀ w, remove_widgets nb w
            = (r, World (files w) (trace w ++ (Printed <$> notices))))
      ∧ forallb is_removal_notice (Printed <$> notices) = true
      ∧ match r with
        | Ok (nb', ch) =>
            tolerated nb = true ∧ nb' = strip_widgets nb
            ∧ ch = has_widgets nb ∧ notices = removal_notices nb
        | Raise _ => tolerated nb = false
        end).
  { intros Hrun Hcells Hstrip Hsafe.
    destruct (top_step_spec nb false) as (r & notices & Hrun2 & Hr).
    exists r, notices. split; [intros w; by rewrite Hrun, Hrun2 |].
    unfold tolerated, strip_widgets, has_widgets, removal_notices.
    rewrite Hstrip, Hcells, Hsafe.
    destruct r as [[nb' ch']|e].
    - destruct Hr as (-> & -> & -> & ->). split; [| done].
      by destruct (meta_has_widgets _).
    - by destruct Hr as [-> ->]. }
  assert (Hraise : ∀ e,
    (∀ w, remove_widgets nb w = (Raise e, w)) →
    cells_safe (nb !! "cells") = false →
    ∃ r notices,
      (∀ w, remove_widgets nb w
            = (r, World (files w) (trace w ++ (Printed <$> notices))))
      ∧ forallb is_removal_notice (Printed <$> notices) = true
      ∧ match r with
        | Ok (nb', ch) =>
            tolerated nb = true ∧ nb' = strip_widgets nb
            ∧ ch = has_widgets nb ∧ notices = removal_notices nb
        | Raise _ => tolerated nb = false
        end).
  { intros e Hrun Hsafe. exists (Raise e), []. split_and!; [| done |].
    - intros w. rewrite Hrun. simpl. by rewrite app_nil_r, world_eta.
    - unfold tolerated. by rewrite Hsafe. }
  unfold nb_cells, strip_cells in Hnone.
  destruct (nb !! "cells") as [cells|] eqn:Hc.
  2:{ apply Hnone; try done. intros w. by rewrite remove_widgets_unfold, Hc. }
  destruct cells as [| | | | s | l | d];
    try (apply (Hraise TypeError); [| done];
         intros w; by rewrite remove_widgets_unfold, Hc).
  - (* a string *)
    destruct s as [|a s].
    + apply Hnone; try done. intros w. by rewrite remove_widgets_unfold, Hc.
    + apply (Hraise AttributeError); [| done].
      intros w. by rewrite remove_widgets_unfold, Hc.
  - (* a list *)
    clear Hnone Hraise.
    destruct (cells_loop_spec l [] nb false Hc) as (r & notices & Hrun & Hr).
    simpl length in Hrun, Hr.
    destruct r as [[nb1 ch1]|e].
    + destruct Hr as (Hsafe & Hnb1 & -> & ->). simpl app in Hnb1.
      assert (Hnb1' : nb1 = strip_cells nb).
      { rewrite Hnb1. unfold strip_cells. rewrite Hc.
        destruct (existsb cell_has_widgets l) eqn:Hex; [done |].
        by rewrite strip_cells_id, insert_id. }
      clear Hnb1. subst nb1.
      destruct (top_step_spec (strip_cells nb)
                  (false || existsb cell_has_widgets l))
        as (r & notices & Hrun2 & Hr2).
      exists r, ((MsgRemovedCell <$> widget_cells_from 0 l) ++ notices).
      split.
      { intros w. rewrite remove_widgets_unfold, Hc. simpl.
        rewrite Hrun, Hrun2. simpl. by rewrite fmap_app, app_assoc. }
      rewrite strip_cells_metadata in Hr2.
      unfold tolerated, strip_widgets, has_widgets, removal_notices, nb_cells.
      rewrite Hc. simpl cells_safe. rewrite Hsafe.
      destruct r as [[nb' ch']|e].
      * destruct Hr2 as (-> & -> & -> & ->). split; [| done].
        rewrite fmap_app, forallb_app, cell_notices_are_notices.
        by destruct (meta_has_widgets _).
      * destruct Hr2 as [-> ->]. split; [| done].
        rewrite app_nil_r. apply cell_notices_are_notices.
    + destruct Hr as (Hsafe & positions & ->).
      exists (Raise e), (MsgRemovedCell <$> positions). split_and!.
      * intros w. rewrite remove_widgets_unfold, Hc. simpl. by rewrite Hrun.
      * apply cell_notices_are_notices.
      * unfold tolerated. rewrite Hc. simpl. by rewrite Hsafe.
  - (* a dictionary *)
    destruct (map_to_list d) as [|[k v] kvs] eqn:Hd.
    + apply Hnone; try done; [| by simpl; rewrite Hd].
      intros w. rewrite remove_widgets_unfold, Hc. simpl. by rewrite Hd.
    + apply (Hraise AttributeError); [| by simpl; rewrite Hd].
      intros w. rewrite remove_widgets_unfold, Hc. simpl. by rewrite Hd.
Qed.

(** ** The stripped notebook *)

Lemma strip_widgets_other nb k :
  k ≠ "cells" → k ≠ "metadata" → strip_widgets nb !! k = nb !! k.
Proof.
  intros Hc Hm. unfold strip_widgets, strip_top, strip_cells.
  destruct (nb !! "cells") as [[| | | | | l |]|] eqn:Hcells;
    rewrite ?lookup_insert_ne by done;
    destruct (nb !! "metadata") as [[| | | | | |m]|] eqn:Hmeta;
    by rewrite ?lookup_insert_ne by done.
Qed.

Lemma strip_widgets_metadata nb :
  strip_widgets nb !! "metadata" = strip_meta_entry (nb !! "metadata").
Proof.
  unfold strip_widgets, strip_top. rewrite strip_cells_metadata.
  destruct (nb !! "metadata") as [[| | | | | |m]|] eqn:Hmeta;
    rewrite ?strip_cells_metadata, ?lookup_insert_eq; done.
Qed.

Lemma strip_widgets_cells nb :
  strip_widgets nb !! "cells" = strip_cells_entry (nb !! "cells").
Proof.
  assert (Htop : ∀ nb0, strip_top nb0 !! "cells" = nb0 !! "cells").
  { intros nb0. unfold strip_top.
    destruct (nb0 !! "metadata") as [[| | | | | |m]|]; try done.
    by rewrite lookup_insert_ne. }
  unfold strip_widgets. rewrite Htop. unfold strip_cells.
  destruct (nb !! "cells") as [[| | | | | l |]|] eqn:Hcells;
    rewrite ?lookup_insert_eq; done.
Qed.

Lemma get_version_strip nb : get_version (strip_widgets nb) = get_version nb.
Proof. unfold get_version. by rewrite strip_widgets_other. Qed.

Lemma without_widgets_delete (o : option json) :
  without_widgets o (strip_meta_entry o).
Proof.
  destruct o as [[| | | | | |m]|]; simpl; try done.
  exists (delete "widgets" m). split_and!; [done | |].
  - apply lookup_delete_eq.
  - intros k Hk. by apply lookup_delete_ne.
Qed.

Lemma cell_stripped_strip cell : cell_stripped cell (strip_cell cell).
Proof.
  destruct cell as [| | | | | |c]; simpl; try done.
  destruct (c !! "metadata") as [[| | | | | |m]|] eqn:Hm;
    try (exists c; rewrite ?Hm; by split_and!).
  eexists. split_and!; [done | |].
  - intros k Hk. by rewrite lookup_insert_ne.
  - rewrite lookup_insert_eq, ?Hm.
    apply (without_widgets_delete (Some (JDict m))).
Qed.

Lemma widgets_removed_strip nb : widgets_removed nb (strip_widgets nb).
Proof.
  split_and!.
  - apply strip_widgets_other.
  - rewrite strip_widgets_metadata. apply without_widgets_delete.
  - rewrite strip_widgets_cells.
    destruct (nb !! "cells") as [[| | | | | l |]|]; try done. simpl.
    exists (strip_cell <$> l). split_and!; [done | |].
    + apply Forall2_fmap_r, Forall_Forall2_diag, Forall_forall.
      intros cell _. apply cell_stripped_strip.
    + intros i cell Hi Hw.
      rewrite list_lookup_fmap, Hi. simpl. by rewrite strip_cell_id.
Qed.




Lemma has_widgets_strip nb : has_widgets (strip_widgets nb) = false.
Proof.
  unfold has_widgets, nb_cells.
  rewrite strip_widgets_cells, strip_widgets_metadata.
  unfold strip_cells_entry, strip_meta_entry.
  apply orb_false_intro.
  - destruct (nb !! "cells") as [[| | | | | l |]|]; try done.
    induction l as [|cell l IH]; [done |].
    rewrite fmap_cons. simpl. by rewrite strip_cell_no_widgets, IH.
  - destruct (nb !! "metadata") as [[| | | | | |m]|]; try done. simpl.
    apply bool_decide_eq_false. rewrite lookup_delete_eq. by intros [? ?].
Qed.

Lemma strip_cell_safe cell : cell_safe (strip_cell cell) = cell_safe cell.
Proof.
  destruct cell as [| | | | | |c]; try done. simpl.
  destruct (c !! "metadata") as [[| | | | | |m]|] eqn:Hm; simpl;
    rewrite ?Hm; try done.
  by rewrite lookup_insert_eq.
Qed.

Lemma tolerated_strip nb : tolerated (strip_widgets nb) = tolerated nb.
Proof.
  unfold tolerated. rewrite strip_widgets_cells, strip_widgets_metadata.
  unfold strip_cells_entry, strip_meta_entry.
  f_equal.
  - destruct (nb !! "cells") as [[| | | | | l |]|]; try done. simpl.
    induction l as [|cell l IH]; [done |].
    rewrite fmap_cons. simpl. by rewrite strip_cell_safe, IH.
  - by destruct (nb !! "metadata") as [[| | | | | |m]|].
Qed.

Lemma well_formed_tolerated nb : well_formed nb = true → tolerated nb = true.
Proof.
  unfold well_formed, tolerated. intros [Hc Hm]%andb_prop.
  apply andb_true_intro. split.
  - destruct (nb !! "cells") as [[| | | | | l |]|]; try done. simpl.
    induction l as [|cell l IH]; [done |]. simpl in Hc |- *.
    apply andb_prop in Hc as [Hcell Hl]. rewrite (IH Hl), andb_true_r.
    destruct cell as [| | | | | |c]; try done. simpl in Hcell |- *.
    by destruct (c !! "metadata") as [[| | | | | |m]|].
  - by destruct (nb !! "metadata") as [[| | | | | |m]|].
Qed.

(** The positions listed by [widget_cells_from] increase, and they are
    those of the cells with widget metadata. *)
Lemma widget_cells_from_spec cells : ∀ i,
  StronglySorted lt (widget_cells_from i cells)
  ∧ ∀ j, j ∈ widget_cells_from i cells
         ↔ i ≤ j ∧ ∃ cell, cells !! (j - i) = Some cell
                           ∧ cell_has_widgets cell = true.
Proof.
  induction cells as [|cell cells IH]; intros i.
  { split; [constructor |]. intros j. simpl. split.
    - by intros ?%elem_of_nil.
    - by intros (_ & c & ? & _). }
  destruct (IH (S i)) as [Hsorted Hmem]. simpl. split.
  - destruct (cell_has_widgets cell); [| done]. simpl.
    constructor; [done |]. apply Forall_forall. intros j Hj.
    apply Hmem in Hj as [Hj _]. lia.
  - intros j. rewrite elem_of_app, Hmem. split.
    + intros [Hj | (Hj & c & Hc & Hw)].
      * destruct (cell_has_widgets cell) eqn:Hcell; [| by apply elem_of_nil in Hj].
        apply list_elem_of_singleton in Hj as ->. split; [done |].
        exists cell. by rewrite Nat.sub_diag.
      * split; [lia |]. exists c. split; [| done].
        replace (j - i) with (S (j - S i)) by lia. done.
    + intros (Hj & c & Hc & Hw).
      destruct (decide (j = i)) as [-> | Hne].
      * left. rewrite Nat.sub_diag in Hc. injection Hc as ->.
        rewrite Hw. apply list_elem_of_singleton. done.
      * right. split; [lia |]. exists c. split; [| done].
        replace (j - i) with (S (j - S i)) in Hc by lia. done.
Qed.

(** ** The exceptions of the two steps *)

Lemma cell_step_exn i cell st w e w' :
  cell_step i cell st w = (Raise e, w') →
  cell_safe cell = false →
  e = TypeError ∨ e = AttributeError.
Proof.
  unfold cell_step.
  destruct cell as [| | | | | |c]; try (intros [= <- _]; by right).
  simpl py_get. rewrite M_bind_lift_ok. simpl cell_safe.
  destruct (c !! "metadata") as [meta|] eqn:Hm; simpl default; [| done].
  destruct meta as [| | | | s | l |m]; try (intros [= <- _]; by left);
    simpl py_contains; rewrite M_bind_lift_ok; simpl meta_safe.
  - destruct (str_contains "widgets" s); [| done]. intros [= <- _]. by left.
  - destruct (existsb (is_str "widgets") l); [| done].
    intros [= <- _]. by left.
  - done.
Qed.

Lemma cells_loop_exn rest : ∀ seen nb ch w e w',
  nb !! "cells" = Some (JList (seen ++ rest)) →
  cells_loop (length seen) rest (nb, ch) w = (Raise e, w') →
  e = TypeError ∨ e = AttributeError.
Proof.
  induction rest as [|cell rest IH]; intros seen nb ch w e w' Hcells;
    [done |].
  rewrite cells_loop_cons.
  destruct (cell_step_cases cell nb ch seen rest Hcells)
    as [(Hw & Hs & Hstep) | [(Hw & Hs & Hstep) | (Hs & e0 & Hstep)]].
  - rewrite Hstep.
    replace (S (length seen)) with (length (seen ++ [strip_cell cell]))
      by (rewrite length_app; simpl; lia).
    apply IH. rewrite lookup_insert_eq. by rewrite <- app_assoc.
  - rewrite Hstep.
    replace (S (length seen)) with (length (seen ++ [cell]))
      by (rewrite length_app; simpl; lia).
    apply IH. by rewrite <- app_assoc.
  - destruct (cell_step (length seen) cell (nb, ch) w) as [[st|e1] w1] eqn:Hs1.
    + by rewrite Hstep in Hs1.
    + intros [= <- _]. by eapply cell_step_exn.
Qed.

Lemma top_step_exn st w e w' :
  top_step st w = (Raise e, w') → e = TypeError.
Proof.
  destruct st as [nb ch]. unfold top_step, del_top_widgets.
  destruct (nb !! "metadata") as [meta|] eqn:Hm; simpl default.
  2:{ simpl py_contains. by rewrite M_bind_lift_ok. }
  destruct meta as [| | | | s | l |m]; try (by intros [= <- _]);
    simpl py_contains; rewrite M_bind_lift_ok.
  - destruct (str_contains "widgets" s); [| done].
    simpl. rewrite Hm. simpl. by intros [= <- _].
  - destruct (existsb (is_str "widgets") l); [| done].
    simpl. rewrite Hm. simpl. by intros [= <- _].
  - case_bool_decide as Hw; [| done]. destruct Hw as [x Hx].
    simpl. rewrite Hm. simpl. rewrite Hx. intros H.
    cbv [mbind M_bind outcome_bind mret M_ret outcome_ret lift print emit]
      in H.
    discriminate.
Qed.

Lemma remove_widgets_exn nb w e w' :
  remove_widgets nb w = (Raise e, w') →
  e = TypeError ∨ e = AttributeError.
Proof.
  rewrite remove_widgets_unfold.
  assert (Htop : top_step (nb, false) w = (Raise e, w') →
                 e = TypeError ∨ e = AttributeError).
  { intros H. left. by eapply top_step_exn. }
  destruct (nb !! "cells") as [cells|] eqn:Hc; simpl default;
    [| exact Htop].
  destruct cells as [| | | | s | l | d]; try (intros [= <- _]; by left);
    simpl py_iter.
  - destruct s as [|a s]; [exact Htop |].
    intros [= <- _]. by right.
  - clear Htop.
    destruct (cells_loop 0 l (nb, false) w) as [[st|e1] w1] eqn:Hloop.
    + rewrite Hloop. intros H. left. by eapply top_step_exn.
    + rewrite Hloop. intros [= <- _].
      by apply (cells_loop_exn l [] nb false w e1 w1).
  - destruct (map_to_list d) as [|[k v] kvs]; [exact Htop |].
    intros [= <- _]. by right.
Qed.

(** ** Preservation composes *)

Lemma same_but_widgets_refl o : same_but_widgets o o.
Proof. by left. Qed.



Lemma cell_preserved_refl : ∀ c, cell_preserved c c.
Proof. intros c. by left. Qed.

Lemma preserved_refl nb : preserved nb nb.
Proof. split_and!; [done | by left | by left]. Qed.


(** ** The name of a path object *)

Section PathObjects.

Implicit Types (s t p x : string) (c : Ascii.ascii) (parts : list string).

Lemma str_split_no_sep c s x : x ∈ str_split c s → str_has c x = false.
Proof.
  revert x; induction s as [|a s IH]; intros x; simpl.
  { by intros ->%list_elem_of_singleton. }
  destruct (Ascii.eqb a c) eqn:Hac.
  - intros [-> | Hx]%elem_of_cons; [done | by apply IH].
  - destruct (str_split c s) as [|y ys] eqn:Hs.
    + intros ->%list_elem_of_singleton. simpl. by rewrite Hac.
    + intros [-> | Hx]%elem_of_cons.
      * simpl. rewrite Hac. apply IH. by left.
      * apply IH. by right.
Qed.

Lemma path_parts_spec p x :
  x ∈ path_parts p → x ≠ "" ∧ x ≠ "." ∧ str_has slash x = false.
Proof.
  unfold path_parts. intros [[? ?] Hx]%list_elem_of_filter.
  split_and!; [done | done |]. by eapply str_split_no_sep.
Qed.

Lemma str_rfind_end c s : str_rfind c (s +:+ String c "") = Some (String.length s).
Proof.
  induction s as [|a s IH].
  - rewrite str_app_nil. simpl. by rewrite Ascii.eqb_refl.
  - rewrite str_app_cons. simpl. by rewrite IH.
Qed.

(** What follows a slash, or stands alone, and has no slash in it is the
    base name. *)
Lemma basename_after pre x :
  str_has slash x = false →
  pre = "" ∨ (∃ q, pre = q +:+ "/") →
  basename (pre +:+ x) = x.
Proof.
  intros Hx Hpre. unfold basename. rewrite str_rfind_app by done.
  destruct Hpre as [-> | [q ->]].
  - by rewrite str_app_nil.
  - change "/" with (String slash ""). rewrite str_rfind_end.
    replace (S (String.length q))
      with (String.length (q +:+ String slash ""))
      by (rewrite str_app_length; simpl; lia).
    apply str_drop_all.
Qed.

Lemma str_join_last parts x :
  last parts = Some x →
  ∃ pre, str_join "/" parts = pre +:+ x
         ∧ (pre = "" ∨ ∃ q, pre = q +:+ "/").
Proof.
  induction parts as [|y parts IH]; [done |].
  destruct parts as [|z parts].
  - intros [= ->]. exists "". split; [done | by left].
  - intros Hlast. destruct (IH Hlast) as (pre & Hjoin & Hpre).
    exists (y +:+ "/" +:+ pre). split.
    + change (str_join "/" (y :: z :: parts))
        with (y +:+ "/" +:+ str_join "/" (z :: parts)).
      by rewrite Hjoin, !str_app_assoc.
    + right. destruct Hpre as [-> | [q ->]].
      * exists y. by destruct y.
      * exists (y +:+ "/" +:+ q). by rewrite !str_app_assoc.
Qed.

Lemma path_root_cases p :
  path_root p = "" ∨ path_root p = "/" ∨ path_root p = "//".
Proof.
  unfold path_root.
  destruct (leading_slashes p) as [|[|[|n]]]; auto.
Qed.

(** The name of [Path(p)] is the last of its components, and empty when
    it has none. *)
Lemma Path_name p : path_name (Path p) = default "" (last (path_parts p)).
Proof.
  unfold Path.
  destruct (last (path_parts p)) as [x|] eqn:Hlast.
  - destruct (str_join_last _ _ Hlast) as (pre & -> & Hpre).
    assert (Hx : x ∈ path_parts p).
    { apply last_Some in Hlast as [l ->]. apply elem_of_app. right. by left. }
    apply path_parts_spec in Hx as (Hx1 & Hx2 & Hx3).
    rewrite <- str_app_assoc.
    set (head := path_root p +:+ pre).
    assert (Hhead : head = "" ∨ ∃ q, head = q +:+ "/").
    { unfold head.
      destruct Hpre as [-> | [q ->]].
      - destruct (path_root_cases p) as [-> | [-> | ->]];
          [by left | right; by exists "" | right; by exists "/"].
      - right. exists (path_root p +:+ q). by rewrite str_app_assoc. }
    assert (Hne : head +:+ x ≠ "").
    { destruct head; [by rewrite str_app_nil | by rewrite str_app_cons]. }
    destruct (String.eqb_spec (head +:+ x) "") as [|_]; [done |].
    simpl default.
    assert (Hdot : head +:+ x ≠ ".").
    { destruct Hhead as [-> | [q ->]]; [by rewrite str_app_nil |].
      intros H. apply (f_equal (str_has slash)) in H.
      rewrite !str_has_app in H. simpl in H.
      by rewrite orb_true_r in H. }
    unfold path_name.
    destruct (String.eqb_spec (head +:+ x) ".") as [|_]; [done |].
    by apply basename_after.
  - apply last_None in Hlast. rewrite Hlast. simpl.
    by destruct (path_root_cases p) as [-> | [-> | ->]].
Qed.

(** The arguments that give a path without a name are those without a
    component: the empty string, ["."], the slashes, and what [Path]
    makes the same of. *)
Lemma Path_unnamed p : path_name (Path p) = "" ↔ path_parts p = [].
Proof.
  rewrite Path_name. split.
  - destruct (last (path_parts p)) as [x|] eqn:Hlast.
    + simpl. intros ->.
      assert (Hx : "" ∈ path_parts p).
      { apply last_Some in Hlast as [l ->]. apply elem_of_app. right. by left. }
      by apply path_parts_spec in Hx as (? & _).
    + intros _. by apply last_None.
  - by intros ->.
Qed.

End PathObjects.

Example Path_normal_forms :
  Path <$> [""; "."; "./"; "/"; "//"; "///"; "./nb//a.ipynb"; "nb/a.ipynb/";
            "//srv/a"; "///srv/a"; "nb/../a"]
  = ["."; "."; "."; "/"; "//"; "/"; "nb/a.ipynb"; "nb/a.ipynb";
     "//srv/a"; "/srv/a"; "nb/../a"].
Proof. reflexivity. Qed.
(** ** Runs of [remove_widgets_from_notebook] *)

Section Runs.

Variable nb_reads : bytes → outcome NotebookNode.
Variable nb_convert : NotebookNode → Z → NotebookNode.
Variable nb_writes : json → NotebookNode → outcome bytes.

Abbreviation process :=
  (remove_widgets_from_notebook nb_reads nb_convert nb_writes).
Abbreviation run_paths := (for_each_path nb_reads nb_convert nb_writes).
Abbreviation run_main := (main nb_reads nb_convert nb_writes).

(** What follows the read, in terms of [remove_widgets]. *)
Lemma process_tail nb path (k : M bool) w :
  (∀ w', k w' = (Ok true, w')) →
  (cells ← lift (py_iter (default (JList []) (nb !! "cells")));
   '(nb, changed) ← cells_loop 0 cells (nb, false);
   let top_meta := default (JDict ∅) (nb !! "metadata") in
   has ← lift (py_contains "widgets" top_meta);
   '(nb, changed) ←
     (if has : bool then
        nb ← lift (del_top_widgets nb);
        print MsgRemovedTop;;
        mret (nb, true)
      else mret (nb, changed));
   (if changed : bool then
      nbformat_write nb_convert nb_writes nb (str path) NO_CONVERT;;
      print (MsgPatched path)
    else print (MsgNoChange path));;
   k) w
  = match remove_widgets nb w with
    | (Ok (nb', true), w') =>
        match nbformat_write nb_convert nb_writes nb' path NO_CONVERT w' with
        | (Ok _, w'') =>
            (Ok true,
             World (files w'') (trace w'' ++ [Printed (MsgPatched path)]))
        | (Raise e, w'') => (Raise e, w'')
        end
    | (Ok (nb', false), w') =>
        (Ok true, World (files w') (trace w' ++ [Printed (MsgNoChange path)]))
    | (Raise e, w') => (Raise e, w')
    end.
Proof.
  intros Hk. unfold remove_widgets.
  destruct (py_iter (default (JList []) (nb !! "cells"))) as [cells|e];
    [| reflexivity].
  rewrite !M_bind_lift_ok, !M_bind_unfold.
  destruct (cells_loop 0 cells (nb, false) w) as [[[nb1 ch1]|e] w1];
    [| reflexivity].
  unfold top_step.
  destruct (py_contains "widgets" (default (JDict ∅) (nb1 !! "metadata")))
    as [[|]|e]; [| | reflexivity].
  - rewrite !M_bind_lift_ok.
    destruct (del_top_widgets nb1) as [nb2|e]; [| reflexivity].
    cbv [mbind M_bind mret M_ret lift print emit files trace str].
    destruct (nbformat_write _ _ _ _ _ _) as [[[]|e] w3]; [| reflexivity].
    by rewrite Hk.
  - rewrite !M_bind_lift_ok. destruct ch1;
      cbv [mbind M_bind mret M_ret lift print emit files trace str].
    + destruct (nbformat_write _ _ _ _ _ _) as [[[]|e] w3]; [| reflexivity].
      by rewrite Hk.
    + by rewrite Hk.
Qed.

(** Every run is one of those of [processed], and what it does is added
    to what was done before. *)
Lemma process_run path fs :
  ∃ r fs' evs,
    processed nb_reads nb_writes path fs r fs' evs
    ∧ ∀ t, process path (World fs t) = (r, World fs' (t ++ evs)).
Proof.
  unfold remove_widgets_from_notebook.
  destruct (fs !! path) as [nd|] eqn:Hfile.
  2:{ eexists _, _, _. split; [by apply run_skipped |]. intros t.
      rewrite M_bind_unfold. unfold path_exists at 1. cbn [files].
      rewrite Hfile, bool_decide_eq_false_2 by (by intros [? ?]).
      reflexivity. }
  assert (Hstart : ∀ (k : string → M bool) t,
    (found ← path_exists path;
     if negb found then print (MsgSkip path);; mret false
     else bak ← lift (with_suffix path (path_suffix path +:+ ".bak")); k bak)
      (World fs t)
    = match with_suffix path (path_suffix path +:+ ".bak") with
      | Ok bak => k bak (World fs t)
      | Raise e => (Raise e, World fs t)
      end).
  { intros k t. rewrite M_bind_unfold. unfold path_exists at 1. cbn [files].
    rewrite Hfile, bool_decide_eq_true_2 by done. cbn [negb].
    by destruct (with_suffix _ _). }
  destruct (String.eqb_spec (path_name path) "") as [Hname|Hname].
  { eexists _, _, _. split; [by eapply run_unnamed |]. intros t.
    rewrite Hstart, with_suffix_unnamed by done. by rewrite app_nil_r. }
  pose proof (backup_dest_neq fs path) as Hdest.
  assert (Hsame : String.eqb path (backup_dest fs path) = false)
    by (apply String.eqb_neq; congruence).
  destruct nd as [content|].
  2:{ eexists _, _, _. split; [by eapply run_directory |]. intros t.
      rewrite Hstart, with_suffix_bak by done.
      rewrite M_bind_unfold. unfold shutil_copy2 at 1. cbn [files trace].
      fold (bak_of path). fold (backup_dest fs path).
      by rewrite Hsame, Hfile, app_nil_r. }
  destruct (is_dir fs (backup_dest fs path)) eqn:Hdir.
  { eexists _, _, _. split; [by eapply run_no_backup |]. intros t.
    rewrite Hstart, with_suffix_bak by done.
    rewrite M_bind_unfold. unfold shutil_copy2 at 1. cbn [files trace].
    fold (bak_of path). fold (backup_dest fs path).
    by rewrite Hsame, Hfile, Hdir, app_nil_r. }
  assert (Hread : ∀ (k : NotebookNode → M bool) t,
    (shutil_copy2 path (bak_of path);;
     print (MsgBackup path (bak_of path));;
     nb ← nbformat_read nb_reads nb_convert (str path) NO_CONVERT; k nb)
      (World fs t)
    = match nb_reads content with
      | Ok nb =>
          k nb (World (<[backup_dest fs path := File content]> fs)
                      (t ++ backup_events path (backup_dest fs path)))
      | Raise e =>
          (Raise e, World (<[backup_dest fs path := File content]> fs)
                          (t ++ backup_events path (backup_dest fs path)))
      end).
  { intros k t. rewrite M_bind_unfold. unfold shutil_copy2 at 1.
    cbn [files trace]. fold (backup_dest fs path).
    rewrite Hsame, Hfile, Hdir. cbn [andb].
    rewrite M_bind_unfold. unfold print at 1, emit at 1. cbn [files trace].
    rewrite M_bind_unfold. unfold nbformat_read at 1, str at 1. cbn [files].
    rewrite lookup_insert_ne by done.
    rewrite Hfile, <- app_assoc. cbn [app].
    by destruct (nb_reads content). }
  destruct (nb_reads content) as [nb|e] eqn:Hnb.
  2:{ eexists _, _, _. split; [by eapply run_unreadable |]. intros t.
      rewrite Hstart, with_suffix_bak by done. fold (bak_of path).
      by rewrite Hread. }
  destruct (remove_widgets_spec nb) as (r & notices & Hrun & Hnotices & Hr).
  destruct r as [[nb' ch]|e].
  - destruct Hr as (Htol & -> & -> & ->).
    destruct (has_widgets nb) eqn:Hw.
    + assert (Hwrite : ∀ t,
        nbformat_write nb_convert nb_writes (strip_widgets nb) path NO_CONVERT
          (World (<[backup_dest fs path := File content]> fs) t)
        = match nb_writes (get_version nb) (strip_widgets nb) with
          | Ok s =>
              (Ok tt,
               World (<[path := File (with_newline s)]>
                        (<[backup_dest fs path := File content]> fs))
                     (t ++ [Written path (strip_widgets nb) (with_newline s)]))
          | Raise e =>
              (Raise e, World (<[backup_dest fs path := File content]> fs) t)
          end).
      { intros t. unfold nbformat_write. cbn [files trace].
        rewrite get_version_strip.
        destruct (nb_writes (get_version nb) (strip_widgets nb)); [| done].
        unfold is_dir. by rewrite lookup_insert_ne, Hfile by done. }
      destruct (nb_writes (get_version nb) (strip_widgets nb)) as [s|e]
        eqn:Htext.
      * eexists _, _, _. split; [by eapply run_patched |]. intros t.
        rewrite Hstart, with_suffix_bak by done. fold (bak_of path).
        rewrite Hread, (process_tail nb path (mret true)) by done.
        rewrite Hrun. cbn [files trace]. rewrite Hwrite. cbn [files trace].
        by rewrite <- !app_assoc.
      * eexists _, _, _. split; [by eapply run_unwritable |]. intros t.
        rewrite Hstart, with_suffix_bak by done. fold (bak_of path).
        rewrite Hread, (process_tail nb path (mret true)) by done.
        rewrite Hrun. cbn [files trace]. rewrite Hwrite.
        by rewrite <- !app_assoc.
    + eexists _, _, _. split; [by eapply run_unchanged |]. intros t.
      rewrite Hstart, with_suffix_bak by done. fold (bak_of path).
      rewrite Hread, (process_tail nb path (mret true)) by done.
      rewrite Hrun, removal_notices_none by done. cbn [files trace].
      by rewrite app_nil_r, <- !app_assoc.
  - assert (He : e = TypeError ∨ e = AttributeError).
    { eapply (remove_widgets_exn nb (World fs [])). by rewrite Hrun. }
    eexists _, _, _. split; [by eapply run_failed |]. intros t.
    rewrite Hstart, with_suffix_bak by done. fold (bak_of path).
    rewrite Hread, (process_tail nb path (mret true)) by done.
    rewrite Hrun. cbn [files trace]. by rewrite <- !app_assoc.
Qed.

End Runs.
(** ** Events of a run *)

(** Membership in the events of a run, piece by piece. *)
Ltac split_events Hin :=
  unfold backup_events in Hin;
  repeat first
    [ apply elem_of_app in Hin as [Hin | Hin]
    | apply elem_of_cons in Hin as [Hin | Hin]
    | by apply elem_of_nil in Hin ].

Section Events.

Variable nb_reads : bytes → outcome NotebookNode.
Variable nb_convert : NotebookNode → Z → NotebookNode.
Variable nb_writes : json → NotebookNode → outcome bytes.



Lemma existsb_among_notices (f : event → bool) (evs : list event) :
  (∀ ev, is_removal_notice ev = true → f ev = false) →
  forallb is_removal_notice evs = true →
  existsb f evs = false.
Proof.
  intros Hf. induction evs as [|ev evs IH]; [done |]. simpl.
  intros [Hev Hevs]%andb_prop. by rewrite (Hf _ Hev), IH.
Qed.

Lemma notice_among (evs : list event) ev :
  forallb is_removal_notice evs = true → ev ∈ evs →
  is_removal_notice ev = true.
Proof.
  intros Hall Hin. apply list_elem_of_In in Hin.
  by apply (proj1 (forallb_forall _ _) Hall).
Qed.

Lemma lookup_dest_path path (x : node) (fs : gmap string node) :
  <[backup_dest fs path := x]> fs !! path = fs !! path.
Proof. apply lookup_insert_ne, backup_dest_neq. Qed.

Lemma lookup_path_dest path (x y : node) (fs : gmap string node) :
  <[path := x]> (<[backup_dest fs path := y]> fs) !! backup_dest fs path
  = Some y.
Proof.
  rewrite lookup_insert_ne by (intros H; by apply (backup_dest_neq fs path)).
  apply lookup_insert_eq.
Qed.


(** The conversions are never called: the run is the same whatever
    the converter. *)
Lemma process_convert_irrelevant convert convert' path w :
  remove_widgets_from_notebook nb_reads convert nb_writes path w
  = remove_widgets_from_notebook nb_reads convert' nb_writes path w.
Proof. reflexivity. Qed.

(** The runs of [processed] are the only ones. *)
Lemma processed_run path fs t r w' :
  remove_widgets_from_notebook nb_reads nb_convert nb_writes path (World fs t)
  = (r, w') →
  ∃ fs' evs,
    processed nb_reads nb_writes path fs r fs' evs
    ∧ w' = World fs' (t ++ evs).
Proof.
  intros Hrun.
  destruct (process_run nb_reads nb_convert nb_writes path fs)
    as (r0 & fs' & evs & Hp & Hrun0).
  rewrite Hrun0 in Hrun. injection Hrun as <- <-. by exists fs', evs.
Qed.

(** The only write of a run is the write-back of the patched run. *)
Lemma processed_written path fs r fs' evs q nb' c :
  processed nb_reads nb_writes path fs r fs' evs →
  Written q nb' c ∈ evs →
  ∃ content nb s,
    fs !! path = Some (File content) ∧ path_name path ≠ ""
    ∧ is_dir fs (backup_dest fs path) = false
    ∧ nb_reads content = Ok nb
    ∧ tolerated nb = true ∧ has_widgets nb = true
    ∧ nb_writes (get_version nb) (strip_widgets nb) = Ok s
    ∧ r = Ok true
    ∧ q = path ∧ nb' = strip_widgets nb
    ∧ c = with_newline s
    ∧ fs' !! path = Some (File c).
Proof.
  assert (Hprints : ∀ notices : list msg, Written q nb' c ∉ Printed <$> notices).
  { intros notices (m & Hm & _)%list_elem_of_fmap. discriminate. }
  intros [Hf | Hf Hn | Hf Hn | content Hf Hn Hd | content e Hf Hn Hd Hr
          | content nb e notices Hf Hn Hd Hr Ht He Hno
          | content nb e Hf Hn Hd Hr Ht Hw Hx
          | content nb s Hf Hn Hd Hr Ht Hw Hx
          | content nb Hf Hn Hd Hr Ht Hw] Hin;
    split_events Hin; try discriminate; try (by apply Hprints in Hin).
  injection Hin as -> -> ->. exists content, nb, s.
  split_and!; try done. apply lookup_insert_eq.
Qed.


(** [for_each_path] over a list in two parts. *)
Lemma for_each_path_cons p rest w :
  for_each_path nb_reads nb_convert nb_writes (p :: rest) w =
  match remove_widgets_from_notebook nb_reads nb_convert nb_writes (Path p) w
  with
  | (Ok _, w') => for_each_path nb_reads nb_convert nb_writes rest w'
  | (Raise e, w') => (Raise e, w')
  end.
Proof. reflexivity. Qed.

Lemma for_each_path_app pre rest w :
  for_each_path nb_reads nb_convert nb_writes (pre ++ rest) w =
  match for_each_path nb_reads nb_convert nb_writes pre w with
  | (Ok _, w') => for_each_path nb_reads nb_convert nb_writes rest w'
  | (Raise e, w') => (Raise e, w')
  end.
Proof.
  revert w. induction pre as [|p pre IH]; intros w; [done |].
  rewrite <- app_comm_cons, !for_each_path_cons.
  destruct (remove_widgets_from_notebook _ _ _ (Path p) w) as [[b|e] w'];
    [| done].
  apply IH.
Qed.

Lemma main_paths prog p rest w :
  main nb_reads nb_convert nb_writes (prog :: p :: rest) w
  = for_each_path nb_reads nb_convert nb_writes (p :: rest) w.
Proof. reflexivity. Qed.

Lemma processed_written_cond path fs r fs' evs :
  processed nb_reads nb_writes path fs r fs' evs →
  existsb (is_written path) evs = true →
  ∃ content nb s,
    fs !! path = Some (File content) ∧ path_name path ≠ ""
    ∧ is_dir fs (backup_dest fs path) = false
    ∧ nb_reads content = Ok nb
    ∧ tolerated nb = true ∧ has_widgets nb = true
    ∧ nb_writes (get_version nb) (strip_widgets nb) = Ok s.
Proof.
  intros Hp (ev & Hin & Hev)%existsb_exists.
  apply list_elem_of_In in Hin.
  destruct ev as [m | src dst | q nb' c]; try done.
  destruct (processed_written _ _ _ _ _ _ _ _ Hp Hin)
    as (content & nb & s & ? & ? & ? & ? & ? & ? & ? & _).
  by exists content, nb, s.
Qed.

Lemma processed_unwritten path fs r fs' evs :
  processed nb_reads nb_writes path fs r fs' evs →
  existsb (is_written path) evs = false →
  fs' !! path = fs !! path.
Proof.
  intros [Hf | Hf Hn | Hf Hn | content Hf Hn Hd | content e Hf Hn Hd Hr
          | content nb e notices Hf Hn Hd Hr Ht He Hno
          | content nb e Hf Hn Hd Hr Ht Hw Hx
          | content nb s Hf Hn Hd Hr Ht Hw Hx
          | content nb Hf Hn Hd Hr Ht Hw] Hev;
    try done; try apply lookup_dest_path.
  exfalso. revert Hev. unfold backup_events. simpl.
  rewrite !existsb_app. simpl. rewrite String.eqb_refl.
  by rewrite orb_true_r.
Qed.

(** The directories stay: a run puts files where there was no
    directory and nothing else. *)
Lemma processed_dirs path fs r fs' evs q :
  processed nb_reads nb_writes path fs r fs' evs →
  is_dir fs' q = is_dir fs q.
Proof.
  assert (Hins : ∀ p c (fs0 : gmap string node),
            is_dir fs0 p = false → is_dir (<[p := File c]> fs0) q = is_dir fs0 q).
  { intros p c fs0 Hp. rewrite is_dir_insert_file.
    case_decide; [by subst |done]. }
  assert (Hfile : ∀ c (fs0 : gmap string node),
            fs0 !! path = Some (File c) → is_dir fs0 path = false).
  { intros c fs0 H. unfold is_dir. by rewrite H. }
  intros [Hf | Hf Hn | Hf Hn | content Hf Hn Hd | content e Hf Hn Hd Hr
          | content nb e notices Hf Hn Hd Hr Ht He Hno
          | content nb e Hf Hn Hd Hr Ht Hw Hx
          | content nb s Hf Hn Hd Hr Ht Hw Hx
          | content nb Hf Hn Hd Hr Ht Hw];
    try done; rewrite ?Hins; try done.
  eapply Hfile. by rewrite lookup_dest_path.
Qed.

Lemma processed_dest path fs r fs' evs :
  processed nb_reads nb_writes path fs r fs' evs →
  backup_dest fs' path = backup_dest fs path.
Proof.
  intros Hp. unfold backup_dest, copy_target.
  by rewrite (processed_dirs _ _ _ _ _ (bak_of path) Hp).
Qed.

(** The run on a file whose notebook the script's steps accept: no
    change, a write-back, or the exception of the writer. *)
Lemma processed_tolerated path fs r fs' evs content nb :
  processed nb_reads nb_writes path fs r fs' evs →
  fs !! path = Some (File content) → path_name path ≠ "" →
  is_dir fs (backup_dest fs path) = false →
  nb_reads content = Ok nb →
  tolerated nb = true →
  (has_widgets nb = false
   ∧ r = Ok true
   ∧ fs' = <[backup_dest fs path := File content]> fs
   ∧ evs = backup_events path (backup_dest fs path)
             ++ [Printed (MsgNoChange path)])
  ∨ (has_widgets nb = true
     ∧ ∃ s, nb_writes (get_version nb) (strip_widgets nb) = Ok s
       ∧ r = Ok true
       ∧ fs' = <[path := File (with_newline s)]>
                 (<[backup_dest fs path := File content]> fs)
       ∧ evs = backup_events path (backup_dest fs path)
                 ++ (Printed <$> removal_notices nb)
                 ++ [Written path (strip_widgets nb) (with_newline s);
                     Printed (MsgPatched path)])
  ∨ (has_widgets nb = true
     ∧ ∃ e, nb_writes (get_version nb) (strip_widgets nb) = Raise e
       ∧ r = Raise e
       ∧ fs' = <[backup_dest fs path := File content]> fs
       ∧ evs = backup_events path (backup_dest fs path)
                 ++ (Printed <$> removal_notices nb)).
Proof.
  intros [Hf | Hf Hn | Hf Hn | c Hf Hn Hd | c e Hf Hn Hd Hr
          | c nb0 e notices Hf Hn Hd Hr Ht He Hno
          | c nb0 e Hf Hn Hd Hr Ht Hw Hx
          | c nb0 s Hf Hn Hd Hr Ht Hw Hx
          | c nb0 Hf Hn Hd Hr Ht Hw]
    Hfile Hname Hdir Hread Htol; simplify_eq; try congruence;
    assert (nb0 = nb) as -> by congruence.
  - right; right. split; [done |]. by exists e.
  - right; left. split; [done |]. by exists s.
  - by left.
Qed.

End Events.
(** * Properties of the script *)

Section Claims.

Variable nb_reads : bytes → outcome NotebookNode.
Variable nb_convert : NotebookNode → Z → NotebookNode.
Variable nb_writes : json → NotebookNode → outcome bytes.

Abbreviation process :=
  (remove_widgets_from_notebook nb_reads nb_convert nb_writes).
Abbreviation run_paths := (for_each_path nb_reads nb_convert nb_writes).
Abbreviation run_main := (main nb_reads nb_convert nb_writes).

(** C1. For a regular file that holds a well-formed notebook, the
    notebook [nb'] that the run hands to the writer is the notebook read
    with the key [widgets] gone from the metadata of every cell that had
    it and from the notebook's metadata: every cell without the key is
    the same cell, the fields of a cell other than [metadata] and the
    other metadata keys are the same, and so are the other entries of
    the notebook. The cells are visited in document order: the removal
    notices name the positions of the cells with the key, in increasing
    order, before the notice for the notebook's own metadata. When a key
    was removed and the writer returns a text, the file holds that text
    and the run returns true; when the writer raises, the run ends with
    its exception and the file is as it was; when there was no key, the
    run returns true and nothing is written. *)
Theorem C1_widgets_removed path fs content nb :
  fs !! path = Some (File content) →
  path_name path ≠ "" →
  is_dir fs (bak_of path) = false →
  nb_reads content = Ok nb →
  well_formed nb = true →
  ∃ nb' positions,
    widgets_removed nb nb'
    ∧ StronglySorted lt positions
    ∧ (∀ i, i ∈ positions
            ↔ ∃ cell, nb_cells nb !! i = Some cell
                      ∧ cell_has_widgets cell = true)
    ∧ ∀ t, process path (World fs t) =
        if has_widgets nb then
          match nb_writes (get_version nb) nb' with
          | Ok s =>
              (Ok true,
               World (<[path := File (with_newline s)]>
                        (<[bak_of path := File content]> fs))
                     (t ++ backup_events path (bak_of path)
                        ++ (Printed <$> (MsgRemovedCell <$> positions))
                        ++ (if meta_has_widgets (nb !! "metadata")
                            then [Printed MsgRemovedTop] else [])
                        ++ [Written path nb' (with_newline s);
                            Printed (MsgPatched path)]))
          | Raise e =>
              (Raise e,
               World (<[bak_of path := File content]> fs)
                     (t ++ backup_events path (bak_of path)
                        ++ (Printed <$> (MsgRemovedCell <$> positions))
                        ++ (if meta_has_widgets (nb !! "metadata")
                            then [Printed MsgRemovedTop] else [])))
          end
        else
          (Ok true,
           World (<[bak_of path := File content]> fs)
                 (t ++ backup_events path (bak_of path)
                    ++ [Printed (MsgNoChange path)])).
Proof.
  intros Hfile Hname Hbak Hread Hwf.
  apply well_formed_tolerated in Hwf.
  exists (strip_widgets nb), (widget_cells_from 0 (nb_cells nb)).
  destruct (widget_cells_from_spec (nb_cells nb) 0) as [Hsorted Hmem].
  split_and!.
  - apply widgets_removed_strip.
  - exact Hsorted.
  - intros i. rewrite Hmem, Nat.sub_0_r. split.
    + by intros [_ ?].
    + intros ?. split; [lia | done].
  - intros t.
    destruct (process_run nb_reads nb_convert nb_writes path fs)
      as (r & fs' & evs & Hp & ->).
    pose proof (backup_dest_plain fs path Hbak) as Hdest.
    assert (Hnotices :
      (Printed <$> removal_notices nb : list event)
      = (Printed <$> (MsgRemovedCell <$> widget_cells_from 0 (nb_cells nb)))
          ++ (if meta_has_widgets (nb !! "metadata")
              then [Printed MsgRemovedTop] else [])).
    { unfold removal_notices. rewrite fmap_app.
      by destruct (meta_has_widgets (nb !! "metadata")). }
    destruct (processed_tolerated _ _ _ _ _ _ _ content nb Hp Hfile Hname)
      as [(Hw & -> & -> & ->) | [(Hw & s & Hs & -> & -> & ->)
                                 | (Hw & e & Hs & -> & -> & ->)]];
      try done; try (by rewrite Hdest);
      rewrite Hw, ?Hs, Hdest, ?Hnotices, <- ?app_assoc; done.
Qed.


(** C5. A path at which nothing stands is skipped: the run says so,
    returns false, leaves the files as they are and does not raise. A
    path at which something stands never gives false: the run returns
    true or raises. It returns true for a regular file whenever the
    notebook is read, has a shape the script does not raise on, and is
    written back, where it has to be, without an exception of the
    writer. *)
Theorem C5_skip_or_true path fs :
  (fs !! path = None →
   ∀ t, process path (World fs t)
        = (Ok false, World fs (t ++ [Printed (MsgSkip path)])))
  ∧ (is_Some (fs !! path) →
     ∀ t, ∃ w', process path (World fs t) = (Ok true, w')
                ∨ ∃ e, process path (World fs t) = (Raise e, w'))
  ∧ (∀ content nb,
       fs !! path = Some (File content) → path_name path ≠ "" →
       is_dir fs (bak_of path) = false →
       nb_reads content = Ok nb → tolerated nb = true →
       (has_widgets nb = true →
        ∃ s, nb_writes (get_version nb) (strip_widgets nb) = Ok s) →
       ∀ t, ∃ w', process path (World fs t) = (Ok true, w')).
Proof.
  destruct (process_run nb_reads nb_convert nb_writes path fs)
    as (r & fs' & evs & Hp & Hrun).
  split_and!.
  - intros Hnone t. rewrite Hrun.
    destruct Hp as [Hf | Hf Hn | Hf Hn | c Hf Hn Hd | c e Hf Hn Hd Hr
                    | c nb e notices Hf Hn Hd Hr Ht He Hno
                    | c nb e Hf Hn Hd Hr Ht Hw Hx
                    | c nb s Hf Hn Hd Hr Ht Hw Hx
                    | c nb Hf Hn Hd Hr Ht Hw]; simplify_eq; try done.
    rewrite Hnone in Hf. by destruct Hf.
  - intros [nd Hfile] t. rewrite Hrun.
    destruct Hp; simplify_eq; eexists;
      first [left; reflexivity | right; eexists; reflexivity].
  - intros content nb Hfile Hname Hbak Hread Htol Hwrites t. rewrite Hrun.
    pose proof (backup_dest_plain fs path Hbak) as Hdest.
    destruct (processed_tolerated _ _ _ _ _ _ _ content nb Hp Hfile Hname)
      as [(Hw & -> & _) | [(Hw & s & Hs & -> & _) | (Hw & e & Hs & _)]];
      try done; try (by rewrite Hdest); try (by eexists).
    destruct (Hwrites Hw) as [s Hs']. congruence.
Qed.



(** C8. The notebook is read in the version it declares and written in
    that version: no conversion takes place on the way in or on the way
    out (the run is the same whatever the converter is), the writer is
    the one of the version the notebook read declares, and the notebook
    written declares the same version, major and minor. *)
Theorem C8_same_version path fs content nb :
  fs !! path = Some (File content) →
  nb_reads content = Ok nb →
  ∃ r fs' evs,
    (∀ convert t,
       remove_widgets_from_notebook nb_reads convert nb_writes path
         (World fs t)
       = (r, World fs' (t ++ evs)))
    ∧ ∀ q nb' c, Written q nb' c ∈ evs →
        (∃ s, nb_writes (get_version nb) nb' = Ok s ∧ c = with_newline s)
        ∧ fs' !! path = Some (File c)
        ∧ nb' !! "nbformat" = nb !! "nbformat"
        ∧ nb' !! "nbformat_minor" = nb !! "nbformat_minor".
Proof.
  intros Hfile Hread.
  destruct (process_run nb_reads nb_convert nb_writes path fs)
    as (r & fs' & evs & Hp & Hrun).
  exists r, fs', evs. split.
  { intros convert t. rewrite <- Hrun.
    apply process_convert_irrelevant. }
  intros q nb' c Hin.
  destruct (processed_written _ _ _ _ _ _ _ _ _ _ Hp Hin)
    as (content' & nb0 & s & Hf & _ & _ & Hr & _ & _ & Hs & _ & -> & ->
        & -> & Hc).
  assert (nb0 = nb) as -> by congruence.
  split_and!; try done; [by exists s | |]; by apply strip_widgets_other.
Qed.

(** C9. When the paths before [p] have been handled and the regular
    file at [p] cannot be read as a notebook, the whole run ends with
    the reader's exception: the last things done are the backup of [p]
    and its notice, nothing is attempted for the paths after [p], the
    file at [p] holds what it held, and its backup is there. *)
Theorem C9_unreadable_halts prog pre p post w fs1 t1 content e :
  run_paths pre w = (Ok tt, World fs1 t1) →
  fs1 !! Path p = Some (File content) →
  path_name (Path p) ≠ "" →
  is_dir fs1 (bak_of (Path p)) = false →
  nb_reads content = Raise e →
  run_main (prog :: pre ++ p :: post) w
  = (Raise e,
     World (<[bak_of (Path p) := File content]> fs1)
           (t1 ++ backup_events (Path p) (bak_of (Path p))))
  ∧ <[bak_of (Path p) := File content]> fs1 !! Path p = Some (File content)
  ∧ <[bak_of (Path p) := File content]> fs1 !! bak_of (Path p)
    = Some (File content).
Proof.
  intros Hpre Hfile Hname Hbak Hread. split_and!.
  - assert (Hmain : run_main (prog :: pre ++ p :: post) w
                    = run_paths (pre ++ p :: post) w).
    { unfold main. rewrite bool_decide_eq_false_2; [done |].
      simpl. rewrite length_app. simpl. lia. }
    rewrite Hmain, for_each_path_app, Hpre, for_each_path_cons.
    destruct (process_run nb_reads nb_convert nb_writes (Path p) fs1)
      as (r & fs' & evs & Hp & ->).
    pose proof (backup_dest_plain fs1 (Path p) Hbak) as Hdest.
    destruct Hp; rewrite ?Hdest in *; simplify_eq; congruence.
  - rewrite lookup_insert_ne by apply bak_neq. done.
  - apply lookup_insert_eq.
Qed.

(** C7. [main] handles the paths one after the other, in the order
    given: once the paths before [p] are done, [p] is handled from the
    world they left, and then the paths after it. What happens for a
    path depends on the files only, not on what was done before: with
    nothing at [A], [main] on [A] and [B] prints the skip of [A] and
    then does for [B] what the run on [B] alone does, so a well-formed
    [B] with widget metadata is backed up and, the writer returning its
    text, patched. *)
Theorem C7_paths_in_order prog A B fs :
  (∀ pre p post w w1,
     run_paths pre w = (Ok tt, w1) →
     run_main (prog :: pre ++ p :: post) w
     = match process (Path p) w1 with
       | (Ok _, w2) => run_paths post w2
       | (Raise e, w2) => (Raise e, w2)
       end)
  ∧ (fs !! Path A = None →
     ∃ r fsB evsB,
       (∀ t, process (Path B) (World fs t) = (r, World fsB (t ++ evsB)))
       ∧ (∀ t, run_main [prog; A; B] (World fs t)
               = (r ≫= (λ _, Ok tt),
                  World fsB (t ++ Printed (MsgSkip (Path A)) :: evsB)))
       ∧ (∀ content nb s,
            fs !! Path B = Some (File content) → path_name (Path B) ≠ "" →
            is_dir fs (bak_of (Path B)) = false →
            nb_reads content = Ok nb → well_formed nb = true →
            has_widgets nb = true →
            nb_writes (get_version nb) (strip_widgets nb) = Ok s →
            r = Ok true
            ∧ fsB !! bak_of (Path B) = Some (File content)
            ∧ fsB !! Path B = Some (File (with_newline s)))).
Proof.
  split.
  - intros pre p post w w1 Hpre.
    assert (Hmain : run_main (prog :: pre ++ p :: post) w
                    = run_paths (pre ++ p :: post) w).
    { unfold main. rewrite bool_decide_eq_false_2; [done |].
      simpl. rewrite length_app. simpl. lia. }
    by rewrite Hmain, for_each_path_app, Hpre, for_each_path_cons.
  - intros HA.
    destruct (process_run nb_reads nb_convert nb_writes (Path B) fs)
      as (r & fsB & evsB & HpB & HrunB).
    exists r, fsB, evsB. split_and!; [exact HrunB | |].
    + intros t. rewrite main_paths, for_each_path_cons.
      destruct (process_run nb_reads nb_convert nb_writes (Path A) fs)
        as (rA & fsA & evsA & HpA & ->).
      assert (rA = Ok false ∧ fsA = fs ∧ evsA = [Printed (MsgSkip (Path A))])
        as (-> & -> & ->).
      { destruct HpA as [Hf | Hf Hn | Hf Hn | c Hf Hn Hd | c e Hf Hn Hd Hr
                         | c nb e notices Hf Hn Hd Hr Ht He Hno
                         | c nb e Hf Hn Hd Hr Ht Hw Hx
                         | c nb s Hf Hn Hd Hr Ht Hw Hx
                         | c nb Hf Hn Hd Hr Ht Hw]; simplify_eq; try done.
        rewrite HA in Hf. by destruct Hf. }
      rewrite for_each_path_cons, HrunB.
      rewrite <- app_assoc. simpl. by destruct r.
    + intros content nb s Hfile Hname Hbak Hread Hwf Hw Hs.
      apply well_formed_tolerated in Hwf.
      pose proof (backup_dest_plain fs (Path B) Hbak) as Hdest.
      destruct (processed_tolerated _ _ _ _ _ _ _ content nb HpB Hfile Hname)
        as [(Hw' & _) | [(_ & s' & Hs' & -> & -> & _) | (_ & e & Hs' & _)]];
        try done; try (by rewrite Hdest); try congruence.
      rewrite Hdest. assert (s' = s) as -> by congruence.
      split_and!; [done | | apply lookup_insert_eq].
      rewrite lookup_insert_ne by (intros H; by apply (bak_neq (Path B))).
      apply lookup_insert_eq.
Qed.

(** The run on a file whose notebook has no [widgets] key and a shape
    the script does not raise on. *)
Lemma processed_unchanged_inv path fs r fs' evs content nb :
  processed nb_reads nb_writes path fs r fs' evs →
  fs !! path = Some (File content) → path_name path ≠ "" →
  is_dir fs (backup_dest fs path) = false →
  nb_reads content = Ok nb →
  tolerated nb = true → has_widgets nb = false →
  r = Ok true
  ∧ fs' = <[backup_dest fs path := File content]> fs
  ∧ evs = backup_events path (backup_dest fs path)
            ++ [Printed (MsgNoChange path)].
Proof.
  intros Hp Hfile Hname Hdir Hread Htol Hw.
  destruct (processed_tolerated _ _ _ _ _ _ _ content nb Hp Hfile Hname)
    as [(_ & -> & -> & ->) | [(Hw' & _) | (Hw' & _)]];
    try done; congruence.
Qed.

(** C6. Two runs in a row on the same path, where reading back what was
    written gives the notebook that was written: the second run leaves
    the file as the first run left it. When the first run returned
    true, the second finds no [widgets] key: it returns true after the
    backup and the no-change notice alone, without removal notices and
    without a write-back. *)
Theorem C6_second_run_no_change path fs :
  (∀ content nb s,
     fs !! path = Some (File content) → nb_reads content = Ok nb →
     nb_writes (get_version nb) (strip_widgets nb) = Ok s →
     nb_reads (with_newline s) = Ok (strip_widgets nb)) →
  ∃ r1 fs1 evs1 r2 fs2 evs2,
    (∀ t, process path (World fs t) = (r1, World fs1 (t ++ evs1)))
    ∧ (∀ t, process path (World fs1 t) = (r2, World fs2 (t ++ evs2)))
    ∧ fs2 !! path = fs1 !! path
    ∧ (r1 = Ok true →
       r2 = Ok true
       ∧ evs2 = backup_events path (backup_dest fs path)
                  ++ [Printed (MsgNoChange path)]).
Proof.
  intros Hround.
  destruct (process_run nb_reads nb_convert nb_writes path fs)
    as (r1 & fs1 & evs1 & Hp1 & Hrun1).
  destruct (process_run nb_reads nb_convert nb_writes path fs1)
    as (r2 & fs2 & evs2 & Hp2 & Hrun2).
  exists r1, fs1, evs1, r2, fs2, evs2.
  split; [exact Hrun1 |]. split; [exact Hrun2 |]. clear Hrun1 Hrun2.
  pose proof (processed_dest _ _ _ _ _ _ _ Hp1) as Hdest.
  split.
  - destruct (existsb (is_written path) evs2) eqn:Hev;
      [| by eapply processed_unwritten].
    exfalso.
    destruct (processed_written_cond _ _ _ _ _ _ _ Hp2 Hev)
      as (c2 & nb2 & s2 & Hf2 & Hn2 & Hd2 & Hr2 & Ht2 & Hw2 & Hs2).
    rewrite Hdest in Hd2.
    destruct Hp1 as [Hf | Hf Hn | Hf Hn | c Hf Hn Hd | c e Hf Hn Hd Hr
                     | c nb e notices Hf Hn Hd Hr Ht He Hno
                     | c nb e Hf Hn Hd Hr Ht Hw Hx
                     | c nb s Hf Hn Hd Hr Ht Hw Hx
                     | c nb Hf Hn Hd Hr Ht Hw];
      rewrite ?lookup_dest_path, ?lookup_insert_eq in Hf2;
      simplify_eq; try congruence.
    specialize (Hround _ _ _ Hf Hr Hx).
    assert (nb2 = strip_widgets nb) as -> by congruence.
    by rewrite has_widgets_strip in Hw2.
  - intros Hr1. rewrite <- Hdest.
    assert (Hd2 : is_dir fs1 (backup_dest fs1 path) = false).
    { rewrite Hdest.
      destruct Hp1; simplify_eq; unfold is_dir;
        rewrite ?lookup_path_dest, ?lookup_insert_eq; done. }
    destruct Hp1 as [Hf | Hf Hn | Hf Hn | c Hf Hn Hd | c e Hf Hn Hd Hr
                     | c nb e notices Hf Hn Hd Hr Ht He Hno
                     | c nb e Hf Hn Hd Hr Ht Hw Hx
                     | c nb s Hf Hn Hd Hr Ht Hw Hx
                     | c nb Hf Hn Hd Hr Ht Hw];
      try done.
    + specialize (Hround _ _ _ Hf Hr Hx).
      destruct (processed_unchanged_inv _ _ _ _ _ (with_newline s)
                  (strip_widgets nb) Hp2)
        as (-> & _ & ->); try done.
      * apply lookup_insert_eq.
      * by rewrite tolerated_strip.
      * apply has_widgets_strip.
    + destruct (processed_unchanged_inv _ _ _ _ _ c nb Hp2)
        as (-> & _ & ->); try done.
      by rewrite lookup_dest_path.
Qed.


End Claims.
(** * The properties on the sample notebooks *)

Ltac compute_goal := vm_compute; first [reflexivity | discriminate].

Lemma C1_witness :
  ∃ nb' positions,
    widgets_removed sample_nb nb'
    ∧ StronglySorted lt positions
    ∧ (∀ i, i ∈ positions
            ↔ ∃ cell, nb_cells sample_nb !! i = Some cell
                      ∧ cell_has_widgets cell = true)
    ∧ ∀ t, demo_process "nb/sample.ipynb" (World demo_fs t) =
        if has_widgets sample_nb then
          match demo_writes (get_version sample_nb) nb' with
          | Ok s =>
              (Ok true,
               World (<["nb/sample.ipynb" := File (with_newline s)]>
                        (<[bak_of "nb/sample.ipynb" := File (line "sample")]>
                           demo_fs))
                     (t ++ backup_events "nb/sample.ipynb"
                             (bak_of "nb/sample.ipynb")
                        ++ (Printed <$> (MsgRemovedCell <$> positions))
                        ++ (if meta_has_widgets (sample_nb !! "metadata")
                            then [Printed MsgRemovedTop] else [])
                        ++ [Written "nb/sample.ipynb" nb' (with_newline s);
                            Printed (MsgPatched "nb/sample.ipynb")]))
          | Raise e =>
              (Raise e,
               World (<[bak_of "nb/sample.ipynb" := File (line "sample")]>
                        demo_fs)
                     (t ++ backup_events "nb/sample.ipynb"
                             (bak_of "nb/sample.ipynb")
                        ++ (Printed <$> (MsgRemovedCell <$> positions))
                        ++ (if meta_has_widgets (sample_nb !! "metadata")
                            then [Printed MsgRemovedTop] else [])))
          end
        else
          (Ok true,
           World (<[bak_of "nb/sample.ipynb" := File (line "sample")]> demo_fs)
                 (t ++ backup_events "nb/sample.ipynb"
                         (bak_of "nb/sample.ipynb")
                    ++ [Printed (MsgNoChange "nb/sample.ipynb")])).
Proof.
  apply (C1_widgets_removed demo_reads demo_convert demo_writes
           "nb/sample.ipynb" demo_fs (line "sample") sample_nb);
    compute_goal.
Defined.




Lemma C5_witness :
  (∀ t, demo_process "nb/missing.ipynb" (World demo_fs t)
        = (Ok false,
           World demo_fs (t ++ [Printed (MsgSkip "nb/missing.ipynb")])))
  ∧ (∀ t, ∃ w', demo_process "nb/sample.ipynb" (World demo_fs t)
                = (Ok true, w')).
Proof.
  split.
  - apply (C5_skip_or_true demo_reads demo_convert demo_writes
             "nb/missing.ipynb" demo_fs).
    compute_goal.
  - apply (proj2 (proj2 (C5_skip_or_true demo_reads demo_convert demo_writes
                           "nb/sample.ipynb" demo_fs))
             (line "sample") sample_nb);
      try compute_goal.
    intros _. eexists. vm_compute. reflexivity.
Defined.

Lemma C6_witness :
  ∃ r1 fs1 evs1 r2 fs2 evs2,
    (∀ t, demo_process "nb/sample.ipynb" (World demo_fs t)
          = (r1, World fs1 (t ++ evs1)))
    ∧ (∀ t, demo_process "nb/sample.ipynb" (World fs1 t)
            = (r2, World fs2 (t ++ evs2)))
    ∧ fs2 !! "nb/sample.ipynb" = fs1 !! "nb/sample.ipynb"
    ∧ (r1 = Ok true →
       r2 = Ok true
       ∧ evs2 = backup_events "nb/sample.ipynb"
                  (backup_dest demo_fs "nb/sample.ipynb")
                  ++ [Printed (MsgNoChange "nb/sample.ipynb")]).
Proof.
  apply (C6_second_run_no_change demo_reads demo_convert demo_writes
           "nb/sample.ipynb" demo_fs).
  intros content nb s Hfile Hread Hs.
  assert (content = line "sample") as ->
    by (vm_compute in Hfile; injection Hfile as <-; reflexivity).
  assert (nb = sample_nb) as ->
    by (change (demo_reads (line "sample")) with (Ok sample_nb) in Hread;
        congruence).
  assert (s = txt "stripped") as ->
    by (change (demo_writes (get_version sample_nb) (strip_widgets sample_nb))
          with (Ok (txt "stripped") : outcome bytes) in Hs;
        congruence).
  compute_goal.
Defined.

Lemma C7_witness :
  demo_main ["fix_remove_widgets.py"; "nb/plain.ipynb";
             "./nb//sample.ipynb"; "nb/missing.ipynb"] (World demo_fs [])
  = match demo_process "nb/sample.ipynb"
            (World (<[bak_of "nb/plain.ipynb" := File (line "plain")]> demo_fs)
                   (backup_events "nb/plain.ipynb" (bak_of "nb/plain.ipynb")
                      ++ [Printed (MsgNoChange "nb/plain.ipynb")])) with
    | (Ok _, w2) =>
        for_each_path demo_reads demo_convert demo_writes
          ["nb/missing.ipynb"] w2
    | (Raise e, w2) => (Raise e, w2)
    end
  ∧ ∃ r fsB evsB,
      (∀ t, demo_process "nb/sample.ipynb" (World demo_fs t)
            = (r, World fsB (t ++ evsB)))
      ∧ (∀ t, demo_main ["fix_remove_widgets.py"; "nb/missing.ipynb";
                         "nb/sample.ipynb"] (World demo_fs t)
              = (r ≫= (λ _, Ok tt),
                 World fsB (t ++ Printed (MsgSkip "nb/missing.ipynb") :: evsB)))
      ∧ r = Ok true
      ∧ fsB !! bak_of "nb/sample.ipynb" = Some (File (line "sample"))
      ∧ fsB !! "nb/sample.ipynb" = Some (File (line "stripped")).
Proof.
  pose proof (C7_paths_in_order demo_reads demo_convert demo_writes
                "fix_remove_widgets.py" "nb/missing.ipynb" "nb/sample.ipynb"
                demo_fs) as [Horder Hskip].
  split.
  - apply (Horder ["nb/plain.ipynb"] "./nb//sample.ipynb"
             ["nb/missing.ipynb"] (World demo_fs [])).
    compute_goal.
  - destruct Hskip as (r & fsB & evsB & HB & Hmain & Hpatched);
      [compute_goal |].
    exists r, fsB, evsB. split; [exact HB |]. split; [exact Hmain |].
    apply (Hpatched (line "sample") sample_nb (txt "stripped"));
      compute_goal.
Defined.

Lemma C8_witness :
  ∃ r fs' evs,
    (∀ convert t,
       remove_widgets_from_notebook demo_reads convert demo_writes
         "nb/sample.ipynb" (World demo_fs t)
       = (r, World fs' (t ++ evs)))
    ∧ ∀ q nb' c, Written q nb' c ∈ evs →
        (∃ s, demo_writes (get_version sample_nb) nb' = Ok s
              ∧ c = with_newline s)
        ∧ fs' !! "nb/sample.ipynb" = Some (File c)
        ∧ nb' !! "nbformat" = sample_nb !! "nbformat"
        ∧ nb' !! "nbformat_minor" = sample_nb !! "nbformat_minor".
Proof.
  apply (C8_same_version demo_reads demo_convert demo_writes
           "nb/sample.ipynb" demo_fs (line "sample") sample_nb);
    compute_goal.
Defined.

Lemma C9_witness :
  demo_main ["fix_remove_widgets.py"; "nb/plain.ipynb"; "nb/broken.ipynb";
             "nb/sample.ipynb"] (World demo_fs [])
  = (Raise JSONDecodeError,
     World (<[bak_of (Path "nb/broken.ipynb") := File (line "not a notebook")]>
              (<[bak_of "nb/plain.ipynb" := File (line "plain")]> demo_fs))
           ((backup_events "nb/plain.ipynb" (bak_of "nb/plain.ipynb")
               ++ [Printed (MsgNoChange "nb/plain.ipynb")])
              ++ backup_events (Path "nb/broken.ipynb")
                   (bak_of (Path "nb/broken.ipynb"))))
  ∧ <[bak_of (Path "nb/broken.ipynb") := File (line "not a notebook")]>
      (<[bak_of "nb/plain.ipynb" := File (line "plain")]> demo_fs)
      !! Path "nb/broken.ipynb" = Some (File (line "not a notebook"))
  ∧ <[bak_of (Path "nb/broken.ipynb") := File (line "not a notebook")]>
      (<[bak_of "nb/plain.ipynb" := File (line "plain")]> demo_fs)
      !! bak_of (Path "nb/broken.ipynb") = Some (File (line "not a notebook")).
Proof.
  apply (C9_unreadable_halts demo_reads demo_convert demo_writes
           "fix_remove_widgets.py" ["nb/plain.ipynb"] "nb/broken.ipynb"
           ["nb/sample.ipynb"] (World demo_fs []));
    compute_goal.
Defined.




(** The same with a cell that has no [metadata]. *)
Example odd_cells_run :
  nb_cells odd_cells_nb !! 0 = Some (JDict ∅)
  ∧ demo_process "nb/odd_cells.ipynb" (World demo_fs [])
    = (Raise TypeError,
       World (<[bak_of "nb/odd_cells.ipynb" := File (line "odd cells")]>
                demo_fs)
             (backup_events "nb/odd_cells.ipynb"
                (bak_of "nb/odd_cells.ipynb"))).
Proof. split; compute_goal. Qed.
(** * Further properties *)

(** ** The backup path *)

(** X1. The backup is a sibling of the file: the path built by
    [path.with_suffix(path.suffix + ".bak")] lies in the same directory,
    its name is the name of the file followed by [.bak], with the
    extension of the file kept, and its own suffix is [.bak]. *)
Theorem X1_backup_is_sibling p :
  path_name p ≠ "" →
  ∃ b, with_suffix p (path_suffix p +:+ ".bak") = Ok b
       ∧ path_dir b = path_dir p
       ∧ path_name b = path_name p +:+ ".bak"
       ∧ path_suffix b = ".bak".
Proof.
  intros Hname. exists (p +:+ ".bak").
  assert (Hn : path_name (p +:+ ".bak") = path_name p +:+ ".bak")
    by by apply path_name_app.
  split_and!.
  - by apply with_suffix_bak.
  - unfold path_dir. rewrite Hn, !str_app_length.
    pose proof (path_name_length p).
    replace (String.length p + String.length ".bak"
             - (String.length (path_name p) + String.length ".bak"))
      with (String.length p - String.length (path_name p)) by lia.
    apply str_take_app. lia.
  - exact Hn.
  - unfold path_suffix. rewrite Hn.
    change ".bak" with (String dot "bak").
    rewrite str_rfind_app_dot by done.
    rewrite str_app_length. simpl String.length.
    destruct (path_name p) as [|a name] eqn:Hp; [done |].
    rewrite bool_decide_eq_true_2 by (simpl; lia).
    apply str_drop_all.
Qed.

(** X2. Backups do not collide: two paths with the same backup path are
    the same path, and the backup path of a file is never the path of
    the file itself. *)
Theorem X2_backup_paths_distinct p q b c :
  with_suffix p (path_suffix p +:+ ".bak") = Ok b →
  with_suffix q (path_suffix q +:+ ".bak") = Ok c →
  (b = c → p = q) ∧ b ≠ p.
Proof.
  intros [_ ->]%with_suffix_bak_inv [_ ->]%with_suffix_bak_inv. split.
  - apply str_app_inv_r.
  - apply bak_neq.
Qed.

(** ** One run *)

Section OneRun.

Variable nb_reads : bytes → outcome NotebookNode.
Variable nb_convert : NotebookNode → Z → NotebookNode.
Variable nb_writes : json → NotebookNode → outcome bytes.

Abbreviation process :=
  (remove_widgets_from_notebook nb_reads nb_convert nb_writes).

(** *** What a run leaves alone *)

Lemma processed_frame path fs r fs' evs q :
  processed nb_reads nb_writes path fs r fs' evs →
  q ≠ path → q ≠ backup_dest fs path → fs' !! q = fs !! q.
Proof.
  intros Hp Hq Hb. destruct Hp; by rewrite ?lookup_insert_ne by done.
Qed.

Lemma processed_keeps path fs r fs' evs q :
  processed nb_reads nb_writes path fs r fs' evs →
  is_Some (fs !! q) → is_Some (fs' !! q).
Proof.
  intros Hp Hq. destruct Hp; try done;
    repeat (rewrite lookup_insert; case_decide; [by eexists |]); done.
Qed.

Lemma processed_creates path fs r fs' evs q :
  processed nb_reads nb_writes path fs r fs' evs →
  fs !! q = None → is_Some (fs' !! q) → q = backup_dest fs path.
Proof.
  intros Hp Hnone Hsome.
  destruct (decide (q = backup_dest fs path)) as [| Hb]; [done |]. exfalso.
  destruct (decide (q = path)) as [-> | Hq].
  - destruct Hp; simplify_eq; rewrite ?Hnone in *;
      by destruct Hsome.
  - rewrite (processed_frame _ _ _ _ _ _ Hp Hq Hb), Hnone in Hsome.
    by destruct Hsome.
Qed.

(** X3. A run changes nothing but the file at the path and the place of
    its backup, removes nothing, creates nothing but the backup, and
    leaves the directories as they are. The place of the backup is the
    path with [.bak] appended unless a directory stands there. *)
Theorem X3_run_touches_two_files path fs :
  ∃ r fs' evs,
    (∀ t, remove_widgets_from_notebook nb_reads nb_convert nb_writes path
            (World fs t)
          = (r, World fs' (t ++ evs)))
    ∧ (∀ q, q ≠ path → q ≠ backup_dest fs path → fs' !! q = fs !! q)
    ∧ (∀ q, is_Some (fs !! q) → is_Some (fs' !! q))
    ∧ (∀ q, fs !! q = None → is_Some (fs' !! q) → q = backup_dest fs path)
    ∧ (∀ q, is_dir fs' q = is_dir fs q)
    ∧ (is_dir fs (path +:+ ".bak") = false →
       backup_dest fs path = path +:+ ".bak").
Proof.
  destruct (process_run nb_reads nb_convert nb_writes path fs)
    as (r & fs' & evs & Hp & Hrun).
  exists r, fs', evs. split_and!; [done | | | | |].
  - intros q. by eapply processed_frame.
  - intros q. by eapply processed_keeps.
  - intros q. by eapply processed_creates.
  - intros q. by eapply processed_dirs.
  - apply backup_dest_plain.
Qed.

(** X4. The run returns true exactly when a regular file with a name
    stands at the path, no directory is in the way of its backup, the
    reader returns a notebook whose [cells] and [metadata] entries the
    script's operations accept (absent, or of the right kind, or a list
    or string without ["widgets"] in it), and the writer, where the
    notebook has a [widgets] key, returns its text. *)
Theorem X4_returns_iff_tolerated path fs t :
  (∃ w', process path (World fs t) = (Ok true, w'))
  ↔ ∃ content nb,
      fs !! path = Some (File content) ∧ path_name path ≠ ""
      ∧ is_dir fs (backup_dest fs path) = false
      ∧ nb_reads content = Ok nb ∧ tolerated nb = true
      ∧ (has_widgets nb = true →
         ∃ s, nb_writes (get_version nb) (strip_widgets nb) = Ok s).
Proof.
  destruct (process_run nb_reads nb_convert nb_writes path fs)
    as (r & fs' & evs & Hp & Hrun).
  rewrite Hrun. split.
  - intros [w' Heq].
    destruct Hp as [Hf | Hf Hn | Hf Hn | c Hf Hn Hd | c e Hf Hn Hd Hr
                    | c nb e notices Hf Hn Hd Hr Ht He Hno
                    | c nb e Hf Hn Hd Hr Ht Hw Hx
                    | c nb s Hf Hn Hd Hr Ht Hw Hx
                    | c nb Hf Hn Hd Hr Ht Hw]; simplify_eq.
    + exists c, nb. split_and!; try done. intros _. by exists s.
    + exists c, nb. split_and!; try done. congruence.
  - intros (content & nb & Hfile & Hname & Hdir & Hread & Htol & Hwrites).
    destruct (processed_tolerated _ _ _ _ _ _ _ content nb Hp Hfile Hname)
      as [(_ & -> & _) | [(_ & s & _ & -> & _) | (Hw & e & Hs & _)]];
      try done; try (by eexists).
    destruct (Hwrites Hw) as [s Hs']. congruence.
Qed.

(** X5. The script's own steps never raise [KeyError] or [IndexError]:
    [in] is tested before [del], [.get] stands for the lookups, and the
    positions come from [enumerate]. A run that ends with one of the two
    has it from the reader or from the writer. *)
Theorem X5_no_key_or_index_error path fs t e w' :
  process path (World fs t) = (Raise e, w') →
  e = KeyError ∨ e = IndexError →
  ∃ content,
    fs !! path = Some (File content)
    ∧ (nb_reads content = Raise e
       ∨ ∃ nb, nb_reads content = Ok nb
               ∧ nb_writes (get_version nb) (strip_widgets nb) = Raise e).
Proof.
  intros Hrun He.
  destruct (process_run nb_reads nb_convert nb_writes path fs)
    as (r & fs' & evs & Hp & Hrun0).
  rewrite Hrun0 in Hrun. clear Hrun0.
  destruct Hp as [Hf | Hf Hn | Hf Hn | c Hf Hn Hd | c e0 Hf Hn Hd Hr
                  | c nb e0 notices Hf Hn Hd Hr Ht He0 Hno
                  | c nb e0 Hf Hn Hd Hr Ht Hw Hx
                  | c nb s Hf Hn Hd Hr Ht Hw Hx
                  | c nb Hf Hn Hd Hr Ht Hw];
    simplify_eq; try (by destruct He); try (destruct He, He0; congruence).
  - exists c. split; [done |]. by left.
  - exists c. split; [done |]. right. by exists nb.
Qed.

(** *** The status messages of a run *)

Local Ltac not_a_notice :=
  intros [[]| |]; done.

(** X6. The status messages tell what happened: the skip message is
    printed exactly when the run returns false, the backup message
    exactly when the file was copied, the patched message exactly when
    the notebook was written back, and the no-change message exactly
    when the run returns true without a write-back. *)
Theorem X6_status_lines_are_true path fs :
  ∃ r fs' evs,
    (∀ t, process path (World fs t) = (r, World fs' (t ++ evs)))
    ∧ (existsb is_skip_line evs = true ↔ r = Ok false)
    ∧ existsb is_backup_line evs = existsb is_copy evs
    ∧ existsb is_patched_line evs = existsb (is_written path) evs
    ∧ (existsb is_nochange_line evs = true
       ↔ r = Ok true ∧ existsb (is_written path) evs = false).
Proof.
  destruct (process_run nb_reads nb_convert nb_writes path fs)
    as (r & fs' & evs & Hp & Hrun).
  exists r, fs', evs. split; [exact Hrun |]. clear Hrun.
  destruct Hp as [Hf | Hf Hn | Hf Hn | c Hf Hn Hd | c e Hf Hn Hd Hr
                  | c nb e notices Hf Hn Hd Hr Ht He Hno
                  | c nb e Hf Hn Hd Hr Ht Hw Hx
                  | c nb s Hf Hn Hd Hr Ht Hw Hx
                  | c nb Hf Hn Hd Hr Ht Hw];
    unfold backup_events; rewrite ?existsb_app; simpl;
    rewrite ?existsb_app; simpl; rewrite ?String.eqb_refl;
    rewrite ?(existsb_among_notices is_skip_line),
            ?(existsb_among_notices is_backup_line),
            ?(existsb_among_notices is_copy),
            ?(existsb_among_notices is_patched_line),
            ?(existsb_among_notices is_nochange_line),
            ?(existsb_among_notices (is_written path))
      by first [not_a_notice | done | apply removal_notices_are_notices];
    simpl; split_and!; try done; split; try done;
    try (by intros [? ?]); by intros [? ?].
Qed.

(** X7. A second run replaces the backup of the first. After a run that
    patched the file, the backup holds the original bytes; after one run
    more, whatever its result, the backup holds the bytes of the patched
    file. *)
Theorem X7_second_run_replaces_backup path fs content nb s :
  fs !! path = Some (File content) →
  path_name path ≠ "" →
  is_dir fs (bak_of path) = false →
  nb_reads content = Ok nb →
  tolerated nb = true →
  has_widgets nb = true →
  nb_writes (get_version nb) (strip_widgets nb) = Ok s →
  ∃ fs1 evs1 r2 fs2 evs2,
    (∀ t, process path (World fs t) = (Ok true, World fs1 (t ++ evs1)))
    ∧ (∀ t, process path (World fs1 t) = (r2, World fs2 (t ++ evs2)))
    ∧ fs1 !! (path +:+ ".bak") = Some (File content)
    ∧ fs1 !! path = Some (File (with_newline s))
    ∧ fs2 !! (path +:+ ".bak") = Some (File (with_newline s)).
Proof.
  intros Hfile Hname Hbak Hread Htol Hw Hs. fold (bak_of path).
  pose proof (backup_dest_plain fs path Hbak) as Hdest.
  destruct (process_run nb_reads nb_convert nb_writes path fs)
    as (r1 & fs1 & evs1 & Hp1 & Hrun1).
  destruct (process_run nb_reads nb_convert nb_writes path fs1)
    as (r2 & fs2 & evs2 & Hp2 & Hrun2).
  pose proof (processed_dest _ _ _ _ _ _ _ Hp1) as Hdest1.
  rewrite Hdest in Hdest1.
  assert (H1 : r1 = Ok true
               ∧ fs1 = <[path := File (with_newline s)]>
                         (<[bak_of path := File content]> fs)).
  { destruct (processed_tolerated _ _ _ _ _ _ _ content nb Hp1 Hfile Hname)
      as [(Hw' & _) | [(_ & s' & Hs' & -> & -> & _) | (_ & e & Hs' & _)]];
      try done; try (by rewrite Hdest); try congruence.
    rewrite Hdest. split; [done |]. congruence. }
  destruct H1 as [-> ->].
  eexists _, evs1, r2, fs2, evs2.
  split; [exact Hrun1 |]. split; [exact Hrun2 |].
  assert (Hb1 : <[path := File (with_newline s)]>
                  (<[bak_of path := File content]> fs) !! bak_of path
                = Some (File content)).
  { rewrite lookup_insert_ne by (intros H; by apply (bak_neq path)).
    apply lookup_insert_eq. }
  split; [exact Hb1 |]. split; [apply lookup_insert_eq |].
  assert (Hf1 : <[path := File (with_newline s)]>
                  (<[bak_of path := File content]> fs) !! path
                = Some (File (with_newline s)))
    by apply lookup_insert_eq.
  assert (Hd1 : is_dir (<[path := File (with_newline s)]>
                          (<[bak_of path := File content]> fs)) (bak_of path)
                = false)
    by (unfold is_dir; by rewrite Hb1).
  clear Hrun1 Hrun2 Hp1.
  destruct Hp2 as [Hf | Hf Hn | Hf Hn | c Hf Hn Hd | c e Hf Hn Hd Hr
                   | c nb0 e notices Hf Hn Hd Hr Ht He Hno
                   | c nb0 e Hf Hn Hd Hr Ht Hw0 Hx
                   | c nb0 s0 Hf Hn Hd Hr Ht Hw0 Hx
                   | c nb0 Hf Hn Hd Hr Ht Hw0];
    rewrite ?Hdest1 in *; rewrite Hf1 in Hf; simplify_eq;
    try congruence;
    rewrite ?(lookup_insert_ne _ path) by (intros H; by apply (bak_neq path));
    apply lookup_insert_eq.
Qed.

(** X13. A directory is not skipped: it exists, so the run goes on to
    the backup, and the copy raises; nothing is printed and nothing is
    changed. *)
Theorem X13_directory_not_skipped path fs :
  fs !! path = Some Dir →
  path_name path ≠ "" →
  ∀ t, process path (World fs t) = (Raise IsADirectoryError, World fs t).
Proof.
  intros Hdir Hname t.
  destruct (process_run nb_reads nb_convert nb_writes path fs)
    as (r & fs' & evs & Hp & ->).
  destruct Hp; simplify_eq; try congruence. by rewrite app_nil_r.
Qed.


(** X15. A directory at the backup path does not stop the run: the copy
    goes into that directory, under the name of the file, while the
    backup message still names the backup path. *)
Theorem X15_backup_into_directory path fs content :
  fs !! path = Some (File content) →
  path_name path ≠ "" →
  is_dir fs (bak_of path) = true →
  is_dir fs (bak_of path +:+ "/" +:+ basename path) = false →
  ∃ r fs' evs,
    (∀ t, process path (World fs t)
          = (r, World fs'
                  (t ++ Copied path (bak_of path +:+ "/" +:+ basename path)
                     :: Printed (MsgBackup path (bak_of path)) :: evs)))
    ∧ fs' !! (bak_of path +:+ "/" +:+ basename path) = Some (File content)
    ∧ is_dir fs' (bak_of path) = true.
Proof.
  intros Hfile Hname Hbak Hin.
  assert (Hdest : backup_dest fs path = bak_of path +:+ "/" +:+ basename path).
  { destruct (backup_dest_cases fs path) as [[? _] | [_ ?]];
      [congruence | done]. }
  destruct (process_run nb_reads nb_convert nb_writes path fs)
    as (r & fs' & evs & Hp & Hrun).
  pose proof (processed_dirs _ _ _ _ _ _ _ (bak_of path) Hp) as Hdirs.
  pose proof (backup_dest_neq fs path) as Hneq.
  destruct Hp as [Hf | Hf Hn | Hf Hn | c Hf Hn Hd | c e Hf Hn Hd Hr
                  | c nb e notices Hf Hn Hd Hr Ht He Hno
                  | c nb e Hf Hn Hd Hr Ht Hw Hx
                  | c nb s Hf Hn Hd Hr Ht Hw Hx
                  | c nb Hf Hn Hd Hr Ht Hw];
    rewrite ?Hdest in *; simplify_eq; try congruence;
    eexists _, _, _; (split; [exact Hrun |]);
    (split; [| congruence]);
    rewrite ?(lookup_insert_ne _ path) by done;
    apply lookup_insert_eq.
Qed.

(** X16. An argument without a component, such as the empty string,
    ["."] or ["/"], names a path without a name: where it exists, as a
    directory does, the run raises [ValueError] at [with_suffix], before
    any copy, with nothing printed and nothing changed. *)
Theorem X16_unnamed_path p fs :
  path_parts p = [] →
  is_Some (fs !! Path p) →
  ∀ t, process (Path p) (World fs t) = (Raise ValueError, World fs t).
Proof.
  intros Hparts%Path_unnamed Hsome t.
  destruct (process_run nb_reads nb_convert nb_writes (Path p) fs)
    as (r & fs' & evs & Hp & ->).
  destruct Hp as [Hf | Hf Hn | Hf Hn | c Hf Hn Hd | c e Hf Hn Hd Hr
                  | c nb e notices Hf Hn Hd Hr Ht He Hno
                  | c nb e Hf Hn Hd Hr Ht Hw Hx
                  | c nb s Hf Hn Hd Hr Ht Hw Hx
                  | c nb Hf Hn Hd Hr Ht Hw]; try congruence.
  - rewrite Hf in Hsome. by destruct Hsome.
  - by rewrite app_nil_r.
Qed.

End OneRun.

(** ** Runs over several paths *)

Section ManyRuns.

Variable nb_reads : bytes → outcome NotebookNode.
Variable nb_convert : NotebookNode → Z → NotebookNode.
Variable nb_writes : json → NotebookNode → outcome bytes.

Abbreviation process :=
  (remove_widgets_from_notebook nb_reads nb_convert nb_writes).
Abbreviation run_paths := (for_each_path nb_reads nb_convert nb_writes).
Abbreviation run_main := (main nb_reads nb_convert nb_writes).

Lemma for_each_path_run paths : ∀ fs,
  ∃ r fs' evs,
    processed_all nb_reads nb_writes paths fs r fs' evs
    ∧ ∀ t, run_paths paths (World fs t) = (r, World fs' (t ++ evs)).
Proof.
  induction paths as [|p paths IH]; intros fs.
  { exists (Ok tt), fs, []. split; [constructor |].
    intros t. by rewrite app_nil_r. }
  destruct (process_run nb_reads nb_convert nb_writes (Path p) fs)
    as (r1 & fs1 & evs1 & Hp1 & Hrun1).
  destruct r1 as [b|e].
  - destruct (IH fs1) as (r & fs2 & evs2 & Hall & Hrun2).
    exists r, fs2, (evs1 ++ evs2). split; [by econstructor |].
    intros t. rewrite for_each_path_cons.
    by rewrite Hrun1, Hrun2, app_assoc.
  - exists (Raise e), fs1, evs1. split; [by econstructor |].
    intros t. rewrite for_each_path_cons. by rewrite Hrun1.
Qed.

(** [main] prints the usage message and exits, or runs over the
    paths. *)
Lemma main_run argv fs :
  ∃ r fs' evs,
    (∀ t, run_main argv (World fs t) = (r, World fs' (t ++ evs)))
    ∧ ((length argv < 2 ∧ r = Raise (SystemExit 1) ∧ fs' = fs
        ∧ evs = [Printed MsgUsage])
       ∨ (2 ≤ length argv
          ∧ processed_all nb_reads nb_writes (drop 1 argv) fs r fs' evs)).
Proof.
  unfold main. case_bool_decide as Hlen.
  - exists (Raise (SystemExit 1)), fs, [Printed MsgUsage].
    split; [done |]. by left.
  - destruct (for_each_path_run (drop 1 argv) fs)
      as (r & fs' & evs & Hall & Hrun).
    exists r, fs', evs. split; [done |]. right. split; [lia | done].
Qed.

Lemma processed_all_dirs paths fs r fs' evs :
  processed_all nb_reads nb_writes paths fs r fs' evs →
  ∀ q, is_dir fs' q = is_dir fs q.
Proof.
  induction 1 as [fs | p rest fs b fs1 evs1 r fs2 evs2 Hp Hall IH
                  | p rest fs e fs1 evs1 Hp]; intros q.
  - done.
  - rewrite IH. by eapply processed_dirs.
  - by eapply processed_dirs.
Qed.

Lemma backup_dest_dirs (fs fs' : gmap string node) :
  (∀ q, is_dir fs' q = is_dir fs q) →
  ∀ p, backup_dest fs' p = backup_dest fs p.
Proof. intros H p. unfold backup_dest, copy_target. by rewrite H. Qed.

Lemma processed_all_frame paths fs r fs' evs q :
  processed_all nb_reads nb_writes paths fs r fs' evs →
  (∀ p, p ∈ paths → q ≠ Path p ∧ q ≠ backup_dest fs (Path p)) →
  fs' !! q = fs !! q.
Proof.
  induction 1 as [fs | p rest fs b fs1 evs1 r fs2 evs2 Hp Hall IH
                  | p rest fs e fs1 evs1 Hp]; intros Hq.
  - done.
  - rewrite IH.
    + destruct (Hq p) as [? ?]; [by left |]. by eapply processed_frame.
    + intros p' Hp'.
      rewrite (backup_dest_dirs fs fs1)
        by (intros q'; by eapply processed_dirs).
      apply Hq. by right.
  - destruct (Hq p) as [? ?]; [by left |].
    by eapply processed_frame.
Qed.

Lemma processed_all_keeps paths fs r fs' evs q :
  processed_all nb_reads nb_writes paths fs r fs' evs →
  is_Some (fs !! q) → is_Some (fs' !! q).
Proof.
  induction 1 as [fs | p rest fs b fs1 evs1 r fs2 evs2 Hp Hall IH
                  | p rest fs e fs1 evs1 Hp]; intros Hq.
  - done.
  - apply IH. by eapply processed_keeps.
  - by eapply processed_keeps.
Qed.

Lemma processed_all_creates paths fs r fs' evs q :
  processed_all nb_reads nb_writes paths fs r fs' evs →
  fs !! q = None → is_Some (fs' !! q) →
  ∃ p, p ∈ paths ∧ q = backup_dest fs (Path p).
Proof.
  induction 1 as [fs | p rest fs b fs1 evs1 r fs2 evs2 Hp Hall IH
                  | p rest fs e fs1 evs1 Hp]; intros Hnone Hsome.
  - rewrite Hnone in Hsome. by destruct Hsome.
  - destruct (fs1 !! q) as [c|] eqn:Hq1.
    + exists p. split; [by left |].
      eapply processed_creates; [exact Hp | done | by rewrite Hq1].
    + destruct (IH eq_refl Hsome) as (p' & Hp' & ->).
      exists p'. split; [by right |].
      apply backup_dest_dirs. intros q'. by eapply processed_dirs.
  - exists p. split; [by left |]. by eapply processed_creates.
Qed.

(** The write-back of a run comes after its backup. *)
Lemma processed_backup_first path fs r fs' evs j p nb c :
  processed nb_reads nb_writes path fs r fs' evs →
  evs !! j = Some (Written p nb c) →
  p = path ∧ 0 < j ∧ evs !! 0 = Some (Copied path (backup_dest fs path)).
Proof.
  intros Hp Hj.
  destruct (processed_written _ _ _ _ _ _ _ _ _ _ Hp
              (list_elem_of_lookup_2 _ _ _ Hj))
    as (content & nb0 & s & Hf & Hn & Hd & Hr & Ht & Hw & Hs & _ & -> & _).
  split; [done |].
  assert (H0 : evs !! 0 = Some (Copied path (backup_dest fs path))).
  { destruct Hp; simplify_eq; try congruence; done. }
  split; [| done].
  destruct j; [| lia]. rewrite H0 in Hj. discriminate.
Qed.

Lemma processed_backup_place path fs r fs' evs j p nb c :
  processed nb_reads nb_writes path fs r fs' evs →
  evs !! j = Some (Written p nb c) →
  ∃ dst, 0 < j ∧ evs !! 0 = Some (Copied p dst)
         ∧ (dst = bak_of p ∨ dst = bak_of p +:+ "/" +:+ basename p).
Proof.
  intros Hp Hj.
  destruct (processed_backup_first _ _ _ _ _ _ _ _ _ Hp Hj)
    as (-> & Hpos & H0).
  exists (backup_dest fs path). split_and!; [done | done |].
  destruct (backup_dest_cases fs path) as [[_ ->] | [_ ->]];
    [by left | by right].
Qed.

Lemma processed_all_backup_first paths fs r fs' evs :
  processed_all nb_reads nb_writes paths fs r fs' evs →
  ∀ j p nb c, evs !! j = Some (Written p nb c) →
    ∃ i dst, i < j ∧ evs !! i = Some (Copied p dst)
             ∧ (dst = bak_of p ∨ dst = bak_of p +:+ "/" +:+ basename p).
Proof.
  induction 1 as [fs | p0 rest fs b fs1 evs1 r fs2 evs2 Hp Hall IH
                  | p0 rest fs e fs1 evs1 Hp]; intros j p nb c Hj.
  - done.
  - destruct (decide (j < length evs1)) as [Hlt | Hge].
    + rewrite lookup_app_l in Hj by done.
      destruct (processed_backup_place _ _ _ _ _ _ _ _ _ Hp Hj)
        as (dst & Hpos & H0 & Hdst).
      exists 0, dst. split_and!; [done | | done].
      rewrite lookup_app_l by lia. done.
    + rewrite lookup_app_r in Hj by lia.
      destruct (IH _ _ _ _ Hj) as (i & dst & Hi & Hcopy & Hdst).
      exists (length evs1 + i), dst. split_and!; [lia | | done].
      rewrite lookup_app_r by lia.
      by replace (length evs1 + i - length evs1) with i by lia.
  - destruct (processed_backup_place _ _ _ _ _ _ _ _ _ Hp Hj)
      as (dst & Hpos & H0 & Hdst).
    by exists 0, dst.
Qed.

(** X8. In a run of [main], a notebook is never written to a file
    before that file has been copied: every write-back in the sequence
    of events comes after a copy of the same path to that path with
    [.bak] appended, or into it where it is a directory. *)
Theorem X8_backup_before_write argv fs :
  ∃ r fs' evs,
    (∀ t, main nb_reads nb_convert nb_writes argv (World fs t)
          = (r, World fs' (t ++ evs)))
    ∧ ∀ j p nb c, evs !! j = Some (Written p nb c) →
        ∃ i dst, i < j ∧ evs !! i = Some (Copied p dst)
                 ∧ (dst = bak_of p ∨ dst = bak_of p +:+ "/" +:+ basename p).
Proof.
  destruct (main_run argv fs)
    as (r & fs' & evs & Hrun & [(_ & _ & _ & ->) | (_ & Hall)]);
    eexists _, _, _; (split; [exact Hrun |]).
  - intros [|j] p nb c Hj; discriminate.
  - by eapply processed_all_backup_first.
Qed.

(** X9. A run of [main] changes nothing but the files at the paths
    given and the places of their backups, removes nothing, creates
    nothing but backups of the paths given, and leaves the directories
    as they are. *)
Theorem X9_main_touches_paths_and_backups argv fs :
  ∃ r fs' evs,
    (∀ t, main nb_reads nb_convert nb_writes argv (World fs t)
          = (r, World fs' (t ++ evs)))
    ∧ (∀ q, (∀ p, p ∈ drop 1 argv →
               q ≠ Path p ∧ q ≠ backup_dest fs (Path p)) →
            fs' !! q = fs !! q)
    ∧ (∀ q, is_Some (fs !! q) → is_Some (fs' !! q))
    ∧ (∀ q, fs !! q = None → is_Some (fs' !! q) →
            ∃ p, p ∈ drop 1 argv ∧ q = backup_dest fs (Path p))
    ∧ (∀ q, is_dir fs' q = is_dir fs q).
Proof.
  destruct (main_run argv fs)
    as (r & fs' & evs & Hrun & [(_ & _ & -> & _) | (_ & Hall)]);
    eexists _, _, _; (split; [exact Hrun |]).
  - split_and!; try done. intros q Hnone Hsome.
    rewrite Hnone in Hsome. by destruct Hsome.
  - split_and!.
    + intros q. by eapply processed_all_frame.
    + intros q. by eapply processed_all_keeps.
    + intros q. by eapply processed_all_creates.
    + by eapply processed_all_dirs.
Qed.

(** X10. Missing files do not stop [main]: when nothing stands at any of
    the paths given, [main] prints one skip message per path, in the
    order of the paths, leaves the files as they are and returns
    normally. *)
Theorem X10_all_missing prog paths fs :
  paths ≠ [] →
  Forall (λ p, fs !! Path p = None) paths →
  ∀ t, main nb_reads nb_convert nb_writes (prog :: paths) (World fs t)
       = (Ok tt,
          World fs (t ++ (Printed <$> (MsgSkip <$> (Path <$> paths))))).
Proof.
  intros Hne Hall.
  assert (Hpaths : ∀ t, run_paths paths (World fs t)
            = (Ok tt,
               World fs (t ++ (Printed <$> (MsgSkip <$> (Path <$> paths)))))).
  { clear Hne. induction Hall as [|p paths Hp Hall IH]; intros t.
    - by rewrite app_nil_r.
    - rewrite for_each_path_cons.
      destruct (process_run nb_reads nb_convert nb_writes (Path p) fs)
        as (r1 & fs1 & evs1 & Hp1 & ->).
      assert (r1 = Ok false ∧ fs1 = fs ∧ evs1 = [Printed (MsgSkip (Path p))])
        as (-> & -> & ->).
      { destruct Hp1 as [Hf | Hf Hn | Hf Hn | c Hf Hn Hd | c e Hf Hn Hd Hr
                         | c nb e notices Hf Hn Hd Hr Ht He Hno
                         | c nb e Hf Hn Hd Hr Ht Hw Hx
                         | c nb s Hf Hn Hd Hr Ht Hw Hx
                         | c nb Hf Hn Hd Hr Ht Hw]; simplify_eq; try done.
        rewrite Hp in Hf. by destruct Hf. }
      rewrite IH, !fmap_cons, <- app_assoc. done. }
  destruct paths as [|p paths]; [done |].
  intros t. rewrite main_paths. apply Hpaths.
Qed.

Lemma processed_no_usage path fs r fs' evs :
  processed nb_reads nb_writes path fs r fs' evs →
  existsb is_usage_line evs = false.
Proof.
  intros Hp. destruct Hp;
    unfold backup_events; rewrite ?existsb_app; simpl;
    rewrite ?existsb_app; simpl;
    rewrite ?(existsb_among_notices is_usage_line)
      by first [by intros [[]| |] | done | apply removal_notices_are_notices];
    done.
Qed.

Lemma processed_all_no_usage paths fs r fs' evs :
  processed_all nb_reads nb_writes paths fs r fs' evs →
  existsb is_usage_line evs = false.
Proof.
  induction 1 as [fs | p rest fs b fs1 evs1 r fs2 evs2 Hp Hall IH
                  | p rest fs e fs1 evs1 Hp].
  - done.
  - rewrite existsb_app, IH, orb_false_r. by eapply processed_no_usage.
  - by eapply processed_no_usage.
Qed.

(** X11. The usage message is printed exactly when no path is given;
    then nothing else happens: [main] exits with status 1 and the files
    are as they were. *)
Theorem X11_usage argv fs :
  ∃ r fs' evs,
    (∀ t, run_main argv (World fs t) = (r, World fs' (t ++ evs)))
    ∧ (existsb is_usage_line evs = true ↔ length argv < 2)
    ∧ (length argv < 2 →
       r = Raise (SystemExit 1) ∧ fs' = fs ∧ evs = [Printed MsgUsage]).
Proof.
  destruct (main_run argv fs)
    as (r & fs' & evs & Hrun & [(Hlen & -> & -> & ->) | (Hlen & Hall)]);
    eexists _, _, _; (split; [exact Hrun |]).
  - by split_and!.
  - rewrite (processed_all_no_usage _ _ _ _ _ Hall).
    split; [split; [done | lia] | lia].
Qed.

End ManyRuns.

(** ** The text of the messages *)

Lemma str_app_eq_length s1 s2 t1 t2 :
  s1 +:+ t1 = s2 +:+ t2 → String.length s1 = String.length s2 → s1 = s2.
Proof.
  revert s2; induction s1 as [|a s1 IH]; intros [|b s2] H Hlen;
    try done.
  rewrite !str_app_cons in H. injection H as -> H.
  f_equal. apply IH; [done |]. simpl in Hlen. lia.
Qed.

Local Ltac open_lines H :=
  unfold render in H; repeat rewrite str_app_cons in H;
  rewrite ?str_app_nil in H.

(** Among the messages the script prints, two with the same text are
    the same message. *)
Lemma render_inj m1 m2 :
  printable m1 → printable m2 → render m1 = render m2 → m1 = m2.
Proof.
  destruct m1 as [|p1|p1 b1|i1| |p1|p1], m2 as [|p2|p2 b2|i2| |p2|p2];
    simpl; intros H1 H2 Heq; try done;
    try (open_lines Heq; discriminate).
  - open_lines Heq. by simplify_eq.
  - subst. f_equal; [| f_equal];
      (apply (String.app_inj "[BACKUP] ") in Heq;
       apply str_app_eq_length in Heq; [done |];
       apply (f_equal String.length) in Heq;
       unfold bak_of in Heq; rewrite !str_app_length in Heq;
       simpl in Heq; lia).
  - f_equal.
    apply (String.app_inj "  - Removed metadata.widgets from cell ") in Heq.
    by apply (inj pretty).
  - open_lines Heq. by simplify_eq.
  - f_equal. apply (String.app_inj "[NO CHANGE] ") in Heq.
    by apply str_app_inv_r in Heq.
Qed.

Section Messages.

Variable nb_reads : bytes → outcome NotebookNode.
Variable nb_convert : NotebookNode → Z → NotebookNode.
Variable nb_writes : json → NotebookNode → outcome bytes.

Lemma processed_printable path fs r fs' evs m :
  processed nb_reads nb_writes path fs r fs' evs →
  Printed m ∈ evs → printable m.
Proof.
  intros Hp Hin.
  destruct m as [|p|p b|i| |p|p]; try done. simpl.
  assert (Hnot : ∀ evs0, forallb is_removal_notice evs0 = true →
                         Printed (MsgBackup p b) ∉ evs0).
  { intros evs0 Hall Hin0. by apply (notice_among _ _ Hall) in Hin0. }
  pose proof removal_notices_are_notices as Hrem.
  destruct Hp;
    unfold backup_events in Hin;
    repeat first
      [ apply elem_of_app in Hin as [Hin | Hin]
      | apply elem_of_cons in Hin as [Hin | Hin]
      | by apply elem_of_nil in Hin
      | by apply Hnot in Hin
      | by simplify_eq ].
Qed.

Lemma processed_all_printable paths fs r fs' evs m :
  processed_all nb_reads nb_writes paths fs r fs' evs →
  Printed m ∈ evs → printable m.
Proof.
  induction 1 as [fs | p rest fs b fs1 evs1 r fs2 evs2 Hp Hall IH
                  | p rest fs e fs1 evs1 Hp]; intros Hin.
  - by apply elem_of_nil in Hin.
  - apply elem_of_app in Hin as [Hin | Hin]; [| by apply IH].
    by eapply processed_printable.
  - by eapply processed_printable.
Qed.

(** X12. What [main] prints tells the messages apart: two [print] calls
    of a run with the same text report the same thing about the same
    path or the same cell position. *)
Theorem X12_texts_tell_messages_apart argv fs :
  ∃ r fs' evs,
    (∀ t, main nb_reads nb_convert nb_writes argv (World fs t)
          = (r, World fs' (t ++ evs)))
    ∧ ∀ m1 m2, Printed m1 ∈ evs → Printed m2 ∈ evs →
        render m1 = render m2 → m1 = m2.
Proof.
  destruct (main_run nb_reads nb_convert nb_writes argv fs)
    as (r & fs' & evs & Hrun & Hcases).
  exists r, fs', evs. split; [exact Hrun |].
  intros m1 m2 H1 H2. apply render_inj.
  - destruct Hcases as [(_ & _ & _ & ->) | (_ & Hall)].
    + apply list_elem_of_singleton in H1. by simplify_eq.
    + by eapply processed_all_printable.
  - destruct Hcases as [(_ & _ & _ & ->) | (_ & Hall)].
    + apply list_elem_of_singleton in H2. by simplify_eq.
    + by eapply processed_all_printable.
Qed.

End Messages.

(** ** The further properties on the sample notebooks *)

Lemma X1_witness :
  ∃ b, with_suffix "nb/sample.ipynb" (path_suffix "nb/sample.ipynb" +:+ ".bak")
       = Ok b
       ∧ path_dir b = path_dir "nb/sample.ipynb"
       ∧ path_name b = path_name "nb/sample.ipynb" +:+ ".bak"
       ∧ path_suffix b = ".bak".
Proof. apply (X1_backup_is_sibling "nb/sample.ipynb"). compute_goal. Defined.

Lemma X2_witness :
  ("nb/sample.ipynb.bak" = "nb/plain.ipynb.bak"
   → "nb/sample.ipynb" = "nb/plain.ipynb")
  ∧ "nb/sample.ipynb.bak" ≠ "nb/sample.ipynb".
Proof.
  apply (X2_backup_paths_distinct "nb/sample.ipynb" "nb/plain.ipynb"
           "nb/sample.ipynb.bak" "nb/plain.ipynb.bak"); compute_goal.
Defined.

(** With a reader that finds no format in the text and says so by
    [KeyError]. *)
Lemma X5_witness :
  ∃ content,
    demo_fs !! "nb/plain.ipynb" = Some (File content)
    ∧ (keyless_reads content = Raise KeyError
       ∨ ∃ nb, keyless_reads content = Ok nb
               ∧ demo_writes (get_version nb) (strip_widgets nb)
                 = Raise KeyError).
Proof.
  apply (X5_no_key_or_index_error keyless_reads demo_convert demo_writes
           "nb/plain.ipynb" demo_fs [] KeyError
           (World (<[bak_of "nb/plain.ipynb" := File (line "plain")]> demo_fs)
                  (backup_events "nb/plain.ipynb" (bak_of "nb/plain.ipynb")))).
  - compute_goal.
  - by left.
Defined.

Lemma X7_witness :
  ∃ fs1 evs1 r2 fs2 evs2,
    (∀ t, demo_process "nb/sample.ipynb" (World demo_fs t)
          = (Ok true, World fs1 (t ++ evs1)))
    ∧ (∀ t, demo_process "nb/sample.ipynb" (World fs1 t)
            = (r2, World fs2 (t ++ evs2)))
    ∧ fs1 !! ("nb/sample.ipynb" +:+ ".bak") = Some (File (line "sample"))
    ∧ fs1 !! "nb/sample.ipynb" = Some (File (with_newline (txt "stripped")))
    ∧ fs2 !! ("nb/sample.ipynb" +:+ ".bak")
      = Some (File (with_newline (txt "stripped"))).
Proof.
  apply (X7_second_run_replaces_backup demo_reads demo_convert demo_writes
           "nb/sample.ipynb" demo_fs (line "sample") sample_nb
           (txt "stripped")); compute_goal.
Defined.

Lemma X10_witness :
  demo_main ["fix_remove_widgets.py"; "nb/none.ipynb"; "./nb/gone.ipynb"]
    (World demo_fs [])
  = (Ok tt,
     World demo_fs
       (Printed <$> (MsgSkip <$> (Path <$> ["nb/none.ipynb";
                                            "./nb/gone.ipynb"])))).
Proof.
  apply (X10_all_missing demo_reads demo_convert demo_writes
           "fix_remove_widgets.py" ["nb/none.ipynb"; "./nb/gone.ipynb"]
           demo_fs).
  - discriminate.
  - repeat constructor.
Defined.

Lemma X13_witness :
  demo_process "nb/old" (World demo_fs [])
  = (Raise IsADirectoryError, World demo_fs []).
Proof.
  apply (X13_directory_not_skipped demo_reads demo_convert demo_writes
           "nb/old" demo_fs); compute_goal.
Defined.


Lemma X15_witness :
  ∃ r fs' evs,
    (∀ t, demo_process "nb/kept.ipynb" (World demo_fs t)
          = (r, World fs'
                  (t ++ Copied "nb/kept.ipynb"
                          (bak_of "nb/kept.ipynb" +:+ "/"
                             +:+ basename "nb/kept.ipynb")
                     :: Printed (MsgBackup "nb/kept.ipynb"
                                   (bak_of "nb/kept.ipynb")) :: evs)))
    ∧ fs' !! (bak_of "nb/kept.ipynb" +:+ "/" +:+ basename "nb/kept.ipynb")
      = Some (File (line "plain"))
    ∧ is_dir fs' (bak_of "nb/kept.ipynb") = true.
Proof.
  apply (X15_backup_into_directory demo_reads demo_convert demo_writes
           "nb/kept.ipynb" demo_fs (line "plain")); compute_goal.
Defined.

Lemma X16_witness :
  demo_process (Path "./") (World demo_fs [])
  = (Raise ValueError, World demo_fs []).
Proof.
  apply (X16_unnamed_path demo_reads demo_convert demo_writes "./" demo_fs).
  - reflexivity.
  - by eexists.
Defined.
